(** * gr-sidekiq: the radio adapter [sidekiq_base<HdlType>]

    A shallow embedding of [lib/sidekiq_base.cc].  The adapter is a thin
    layer over the vendor hardware-control library: every method issues
    vendor calls, checks their numeric status and either returns or throws
    [std::runtime_error].  The embedding keeps exactly that shape:

    - the adapter object is a record of its data members;
    - the vendor library, the dispatch table [sidekiq_functions] and the host
      clock are an environment, given by a handler [sdk] over an arbitrary
      hardware state;
    - a method is a computation in a small monad that threads the object and
      the hardware state, logs every external call with its reply and every
      [printf], and ends by returning, by throwing, or in undefined
      behaviour (an integer division by zero, a floating-point value
      converted to an integer type that cannot hold it). *)

From Stdlib Require Import ZArith List String Bool Lia.
From Stdlib Require Import Floats.SpecFloat.
Import ListNotations.

Local Open Scope string_scope.
Local Open Scope list_scope.
Local Open Scope Z_scope.

(** ** Machine integers *)

Module Int.

(** Value of an unsigned [w]-bit integer holding [z] reduced modulo [2^w]. *)
Definition wrap_unsigned (w z : Z) : Z := z mod 2 ^ w.

(** Value of a signed (two's complement) [w]-bit integer. *)
Definition wrap_signed (w z : Z) : Z :=
  let u := z mod 2 ^ w in
  if u <? 2 ^ (w - 1) then u else u - 2 ^ w.

Definition u8 := wrap_unsigned 8.
Definition u64 := wrap_unsigned 64.
Definition s64 := wrap_signed 64.

End Int.

(** ** The type [double]

    A [double] is a binary64 value of the Standard Library's specification
    of IEEE 754 ([prec = 53], [emax = 1024]). *)

Module Double.

Definition prec : Z := 53.
Definition emax : Z := 1024.

Definition double := spec_float.

Definition valid (d : double) : bool := valid_binary prec emax d.

(** [static_cast<double>(z)] for an integer [z]; exact below [2^53]. *)
Definition of_Z (z : Z) : double := binary_normalize prec emax z 0 false.

Definition div (x y : double) : double := SFdiv prec emax x y.
Definition sub (x y : double) : double := SFsub prec emax x y.
Definition ltb (x y : double) : bool := SFltb x y.
Definition leb (x y : double) : bool := SFleb x y.

(** The double [1.0]. *)
Definition one : double := S754_finite false 4503599627370496 (-52).

(** [2^k] as a double, what [pow(2.0f, k)] returns for an integer [k]. *)
Definition pow2 (k : Z) : double := SFldexp prec emax (of_Z 1) k.

(** The numerator of a finite value over the denominator [2^(-e)] (or the
    integer itself when the exponent is not negative). *)
Definition signed (s : bool) (m : positive) : Z :=
  if s then Z.neg m else Z.pos m.

(** The integral part, rounding toward zero; none for infinities and NaN. *)
Definition trunc (d : double) : option Z :=
  match d with
  | S754_zero _ => Some 0
  | S754_finite s m e =>
      Some (if 0 <=? e then signed s m * 2 ^ e
            else Z.quot (signed s m) (2 ^ (- e)))
  | _ => None
  end.

(** The mathematical floor; none for infinities and NaN. *)
Definition floor (d : double) : option Z :=
  match d with
  | S754_zero _ => Some 0
  | S754_finite s m e =>
      Some (if 0 <=? e then signed s m * 2 ^ e
            else Z.div (signed s m) (2 ^ (- e)))
  | _ => None
  end.

(** [d >= 0]. *)
Definition nonneg (d : double) : bool := leb (S754_zero false) d.

(** [static_cast<uintW_t>(d)]: the value is truncated toward zero; the
    behaviour is undefined (here: no result) when the truncated value
    cannot be represented in the destination type. *)
Definition to_unsigned (w : Z) (d : double) : option Z :=
  match trunc d with
  | Some v => if (0 <=? v) && (v <? 2 ^ w) then Some v else None
  | None => None
  end.

End Double.

(** ** The message library's values (pmt)

    The part of the external message library that [get_telemetry_pmt] and
    the two timestamp converters use.  As in that library, the empty
    dictionary is the empty list and a dictionary is a list of
    [(key . value)] pairs; [dict_add] replaces the entry of a key that is
    present. *)

Module Pmt.

Inductive pmt_t : Type :=
| PMT_NIL
| symbol (s : string)
| from_long (z : Z)
| from_uint64 (z : Z)
| from_double (d : Double.double)
| cons (a b : pmt_t)
| tuple2 (a b : pmt_t).

Definition make_tuple (a b : pmt_t) : pmt_t := tuple2 a b.

Definition make_dict : pmt_t := PMT_NIL.

Definition is_null (p : pmt_t) : bool :=
  match p with PMT_NIL => true | _ => false end.

(** Equivalence of atoms (pairs are equivalent only when they are the same
    object, which no two values built here are). *)
Definition eqv (a b : pmt_t) : bool :=
  match a, b with
  | PMT_NIL, PMT_NIL => true
  | symbol s, symbol t => String.eqb s t
  | from_long x, from_long y => x =? y
  | from_uint64 x, from_uint64 y => x =? y
  | from_double x, from_double y => SFeqb x y
  | _, _ => false
  end.

Definition acons (k v alist : pmt_t) : pmt_t := cons (cons k v) alist.

Fixpoint dict_has_key (d key : pmt_t) : bool :=
  match d with
  | cons (cons k _) rest => eqv k key || dict_has_key rest key
  | _ => false
  end.

Fixpoint dict_delete (d key : pmt_t) : pmt_t :=
  match d with
  | cons (cons k v) rest =>
      if eqv k key then rest else cons (cons k v) (dict_delete rest key)
  | _ => d
  end.

Definition dict_add (d key value : pmt_t) : pmt_t :=
  if is_null d then acons key value PMT_NIL
  else if dict_has_key d key then acons key value (dict_delete d key)
  else acons key value d.

Fixpoint dict_ref (d key : pmt_t) : option pmt_t :=
  match d with
  | cons (cons k v) rest => if eqv k key then Some v else dict_ref rest key
  | _ => None
  end.

End Pmt.

(** ** The environment: vendor library, dispatch table, host clock *)

(** What the adapter reads of [skiq_param_t]: the I/Q resolution of each
    receive and transmit channel. *)
Record skiq_param_t := {
  rx_iq_resolution : Z -> Z;
  tx_iq_resolution : Z -> Z
}.

(** An external call, indexed by the type of what comes back: the status
    the call returns, paired with the values it leaves in its output
    parameters.  Handles are the integer values of [skiq_rx_hdl_t] or
    [skiq_tx_hdl_t]; the entries in [_func] are those of the dispatch table
    [sidekiq_functions]. *)
Inductive ext_call : Type -> Type :=
| Skiq_init (card num_cards : Z) : ext_call Z
| Skiq_read_parameters (card : Z) : ext_call (Z * skiq_param_t)
| Skiq_read_ref_clock_select (card : Z) : ext_call (Z * Z)
| Skiq_reset_timestamps (card : Z) : ext_call Z
| Skiq_write_timestamp_update_on_1pps (card future new_ts : Z) : ext_call Z
| Skiq_read_last_1pps_timestamp (card : Z) : ext_call (Z * (Z * Z))
| Skiq_update_timestamps (card ts : Z) : ext_call Z
| Skiq_read_curr_sys_timestamp (card : Z) : ext_call (Z * Z)
| Skiq_read_sys_timestamp_freq (card : Z) : ext_call (Z * Z)
| Skiq_is_accel_supported (card : Z) : ext_call (Z * bool)
| Skiq_write_accel_state (card state : Z) : ext_call Z
| Skiq_read_accel (card : Z) : ext_call (Z * (Z * Z * Z))
| Skiq_read_rfic_reg (card address : Z) : ext_call (Z * Z)
| Skiq_write_rfic_reg (card address data : Z) : ext_call Z
| Skiq_read_temp (card : Z) : ext_call (Z * Z)
| Start_streaming_func (card hdl : Z) : ext_call Z
| Stop_streaming_func (card hdl : Z) : ext_call Z
| Get_sample_rate_func (card hdl : Z)
    : ext_call (Z * (Z * Double.double * Z * Z))
| Set_sample_rate_func (card hdl rate bw : Z) : ext_call Z
| Get_frequency_func (card hdl : Z) : ext_call (Z * (Z * Double.double))
| Set_frequency_func (card hdl freq : Z) : ext_call Z
| Get_timestamp_func (card hdl : Z) : ext_call (Z * Z)
| Set_rfic_fir_coeffs_func (card : Z) (coeffs : list Z) : ext_call Z
| Get_rfic_fir_config_func (card : Z) : ext_call (Z * (Z * Z))
| Get_rfic_fir_coeffs_func (card : Z) : ext_call (Z * list Z)
| System_clock_now : ext_call Z.

(** The status a reply carries; the clock has none and counts as zero. *)
Definition status_of {R} (c : ext_call R) : R -> Z :=
  match c in ext_call R return R -> Z with
  | Skiq_init _ _ => fun r => r
  | Skiq_read_parameters _ => fun r => fst r
  | Skiq_read_ref_clock_select _ => fun r => fst r
  | Skiq_reset_timestamps _ => fun r => r
  | Skiq_write_timestamp_update_on_1pps _ _ _ => fun r => r
  | Skiq_read_last_1pps_timestamp _ => fun r => fst r
  | Skiq_update_timestamps _ _ => fun r => r
  | Skiq_read_curr_sys_timestamp _ => fun r => fst r
  | Skiq_read_sys_timestamp_freq _ => fun r => fst r
  | Skiq_is_accel_supported _ => fun r => fst r
  | Skiq_write_accel_state _ _ => fun r => r
  | Skiq_read_accel _ => fun r => fst r
  | Skiq_read_rfic_reg _ _ => fun r => fst r
  | Skiq_write_rfic_reg _ _ _ => fun r => r
  | Skiq_read_temp _ => fun r => fst r
  | Start_streaming_func _ _ => fun r => r
  | Stop_streaming_func _ _ => fun r => r
  | Get_sample_rate_func _ _ => fun r => fst r
  | Set_sample_rate_func _ _ _ _ => fun r => r
  | Get_frequency_func _ _ => fun r => fst r
  | Set_frequency_func _ _ _ => fun r => r
  | Get_timestamp_func _ _ => fun r => fst r
  | Set_rfic_fir_coeffs_func _ _ => fun r => r
  | Get_rfic_fir_config_func _ => fun r => fst r
  | Get_rfic_fir_coeffs_func _ => fun r => fst r
  | System_clock_now => fun _ => 0
  end.

(** A call into the vendor library (directly or through the dispatch
    table), as opposed to a read of the host clock. *)
Definition is_vendor {R} (c : ext_call R) : bool :=
  match c with
  | System_clock_now => false
  | _ => true
  end.

(** An argument of [printf]: an integer, or the platform's description
    [strerror(abs(status))] of a status. *)
Inductive printf_arg : Type :=
| Arg_int (z : Z)
| Arg_strerror_abs (status : Z).

(** What a method leaves behind, in order: the external calls with their
    replies, and the lines it prints (the format string as the source has
    it, escapes not interpreted). *)
Inductive event : Type :=
| Call {R : Type} (c : ext_call R) (reply : R)
| Printf (format : string) (args : list printf_arg).

Definition event_status (e : event) : Z :=
  match e with
  | Call c r => status_of c r
  | Printf _ _ => 0
  end.

Definition event_is_vendor (e : event) : bool :=
  match e with
  | Call c _ => is_vendor c
  | Printf _ _ => false
  end.

(** ** The adapter object *)

(** Modelled from the spec: the class declaration (the header
    [sidekiq/sidekiq_base.h]) is not among the sources; the data members
    are those the methods assign and read.  [card] is the 8-bit card index
    the vendor calls take; the cached [sample_rate] and [bandwidth] hold the
    unsigned 32-bit values written to the hardware; [timestamp_frequency]
    and the nanoseconds-per-tick interval are unsigned 64-bit values. *)
Record sidekiq_base := {
  card : Z;
  hdl : Z;
  hdl2 : Z;
  dual_channel : bool;
  debug_ctr : Z;
  sample_rate : Z;
  bandwidth : Z;
  timestamp_frequency : Z;
  sidekiq_system_time_interval_nanos : Z;
  sidekiq_params : skiq_param_t;
  adc_scaling : Double.double;
  dac_scaling : Double.double
}.

Definition SYNC_ZERO : Z := 1.
Definition SYNC_GPS_PPS : Z := 2.
Definition SYNC_SYSTEM_TIME : Z := 3.
Definition NUM_CARDS : Z := 1.
Definition NANOSECONDS_IN_SECOND : Z := 1000000000.

(** How a method ends. *)
Inductive outcome (A : Type) : Type :=
| Returns (a : A)
| Throws (what : string)
| Undefined.

Arguments Returns {A} a.
Arguments Throws {A} what.
Arguments Undefined {A}.

(** ** Methods as computations *)

Section Adapter.

(** The hardware (and host) state and the handler that answers an external
    call from it: the reply and the state afterwards. *)
Variable H : Type.
Variable sdk : forall R : Type, ext_call R -> H -> R * H.

(** The names of the two telemetry keys, symbols that the header
    declares. *)
Variable CMD_CURRENT_USRP_TIME : string.
Variable CMD_CURRENT_HOST_TIME : string.

Record world := { this : sidekiq_base; hw : H }.

Definition M (A : Type) : Type := world -> outcome A * world * list event.

Definition ret {A} (a : A) : M A := fun w => (Returns a, w, []).

Definition bind {A B} (m : M A) (k : A -> M B) : M B :=
  fun w =>
    match m w with
    | (Returns a, w1, l1) =>
        let '(o, w2, l2) := k a w1 in (o, w2, l1 ++ l2)
    | (Throws what, w1, l1) => (Throws what, w1, l1)
    | (Undefined, w1, l1) => (Undefined, w1, l1)
    end.

(** [throw std::runtime_error(what)]. *)
Definition throw {A} (what : string) : M A := fun w => (Throws what, w, []).

Definition undefined {A} : M A := fun w => (Undefined, w, []).

Definition call {R} (c : ext_call R) : M R :=
  fun w =>
    let (r, h) := sdk R c (hw w) in
    (Returns r, {| this := this w; hw := h |}, [Call c r]).

Definition printf (format : string) (args : list printf_arg) : M unit :=
  fun w => (Returns tt, w, [Printf format args]).

Definition get_this : M sidekiq_base := fun w => (Returns (this w), w, []).

Definition modify_this (f : sidekiq_base -> sidekiq_base) : M unit :=
  fun w => (Returns tt, {| this := f (this w); hw := hw w |}, []).

Notation "x <- m ;; k" := (bind m (fun x => k))
  (at level 100, m at next level, right associativity).
Notation "m ;;; k" := (bind m (fun _ => k))
  (at level 100, right associativity).

(** Assignments to data members. *)
Definition with_ports (c h1 h2 : Z) (s : sidekiq_base) : sidekiq_base :=
  {| card := c; hdl := h1; hdl2 := h2; dual_channel := false;
     debug_ctr := 0;
     sample_rate := sample_rate s; bandwidth := bandwidth s;
     timestamp_frequency := timestamp_frequency s;
     sidekiq_system_time_interval_nanos :=
       sidekiq_system_time_interval_nanos s;
     sidekiq_params := sidekiq_params s;
     adc_scaling := adc_scaling s; dac_scaling := dac_scaling s |}.

Definition with_timestamp_frequency (f : Z) (s : sidekiq_base) :=
  {| card := card s; hdl := hdl s; hdl2 := hdl2 s;
     dual_channel := dual_channel s; debug_ctr := debug_ctr s;
     sample_rate := sample_rate s; bandwidth := bandwidth s;
     timestamp_frequency := f;
     sidekiq_system_time_interval_nanos :=
       sidekiq_system_time_interval_nanos s;
     sidekiq_params := sidekiq_params s;
     adc_scaling := adc_scaling s; dac_scaling := dac_scaling s |}.

Definition with_interval_nanos (i : Z) (s : sidekiq_base) :=
  {| card := card s; hdl := hdl s; hdl2 := hdl2 s;
     dual_channel := dual_channel s; debug_ctr := debug_ctr s;
     sample_rate := sample_rate s; bandwidth := bandwidth s;
     timestamp_frequency := timestamp_frequency s;
     sidekiq_system_time_interval_nanos := i;
     sidekiq_params := sidekiq_params s;
     adc_scaling := adc_scaling s; dac_scaling := dac_scaling s |}.

Definition with_params (p : skiq_param_t) (adc dac : Double.double)
    (s : sidekiq_base) :=
  {| card := card s; hdl := hdl s; hdl2 := hdl2 s;
     dual_channel := dual_channel s; debug_ctr := debug_ctr s;
     sample_rate := sample_rate s; bandwidth := bandwidth s;
     timestamp_frequency := timestamp_frequency s;
     sidekiq_system_time_interval_nanos :=
       sidekiq_system_time_interval_nanos s;
     sidekiq_params := p;
     adc_scaling := adc; dac_scaling := dac |}.

Definition with_rate_bandwidth (rate bw : Z) (s : sidekiq_base) :=
  {| card := card s; hdl := hdl s; hdl2 := hdl2 s;
     dual_channel := dual_channel s; debug_ctr := debug_ctr s;
     sample_rate := rate; bandwidth := bw;
     timestamp_frequency := timestamp_frequency s;
     sidekiq_system_time_interval_nanos :=
       sidekiq_system_time_interval_nanos s;
     sidekiq_params := sidekiq_params s;
     adc_scaling := adc_scaling s; dac_scaling := dac_scaling s |}.

(** *** Timestamps *)

Definition set_zero_timestamp : M unit :=
  s <- get_this ;;
  status <- call (Skiq_reset_timestamps (card s)) ;;
  if negb (status =? 0) then
    printf "Error: failed to set timestamp to zero\n" [] ;;;
    throw "Failure: skiq_reset_timestamps"
  else ret tt.

Definition set_next_pps_timestamp : M unit :=
  s <- get_this ;;
  let future_sys_timestamp := 0 in
  let new_timestamp := 0 in
  status <- call (Skiq_write_timestamp_update_on_1pps (card s)
                    future_sys_timestamp new_timestamp) ;;
  if negb (status =? 0) then
    printf "Error: failed to set next PPS timestamp\n" [] ;;;
    throw "Failure: skiq_write_timestamp_update_on_1pps"
  else ret tt.

Definition get_last_pps_timestamp : M Z :=
  s <- get_this ;;
  r <- call (Skiq_read_last_1pps_timestamp (card s)) ;;
  let '(status, (rf_timestamp, system_timestamp)) := r in
  if negb (status =? 0) then
    printf "Error: failed to get last PPS timestamp\n" [] ;;;
    throw "Failure: skiq_read_last_1pps_timestamp"
  else
    printf "%ld %ld\n" [Arg_int rf_timestamp; Arg_int system_timestamp] ;;;
    ret system_timestamp.

Definition set_sidekiq_system_timestamp (timestamp : Z) : M unit :=
  s <- get_this ;;
  status <- call (Skiq_update_timestamps (card s) timestamp) ;;
  if negb (status =? 0) then
    printf "Error: failed to set system timestamp\n" [] ;;;
    throw "Failure: skiq_update_timestamps"
  else ret tt.

Definition get_sidekiq_system_timestamp : M Z :=
  s <- get_this ;;
  r <- call (Skiq_read_curr_sys_timestamp (card s)) ;;
  let '(status, timestamp) := r in
  if negb (status =? 0) then
    printf "Error: failed to get system timestamp\n" [] ;;;
    throw "Failure: skiq_read_curr_sys_timestamp"
  else ret timestamp.

Definition get_sys_timestamp_frequency : M Z :=
  s <- get_this ;;
  r <- call (Skiq_read_sys_timestamp_freq (card s)) ;;
  let '(status, timestamp_frequency) := r in
  if negb (status =? 0) then
    printf "Error: failed to get system timestamp frequency\n" [] ;;;
    throw "Failure: skiq_read_sys_timestamp_freq"
  else ret timestamp_frequency.

Definition get_ref_clock_configuration : M Z :=
  s <- get_this ;;
  r <- call (Skiq_read_ref_clock_select (card s)) ;;
  let '(status, p_ref_clk) := r in
  if negb (status =? 0) then
    printf "Error: failed to get reference clock configuration\n" [] ;;;
    throw "Failure: skiq_read_ref_clock_select"
  else ret p_ref_clk.

(** [set_sync_type(int type)].  The host time is a signed count of
    nanoseconds; it is divided, as an unsigned 64-bit value, by the cached
    interval, and a zero interval makes the division undefined. *)
Definition set_sync_type (type : Z) : M unit :=
  if type =? SYNC_ZERO then set_zero_timestamp
  else if type =? SYNC_GPS_PPS then ret tt
  else if type =? SYNC_SYSTEM_TIME then
    system_clock_nanos <- call System_clock_now ;;
    s <- get_this ;;
    if sidekiq_system_time_interval_nanos s =? 0 then undefined
    else
      let sidekiq_timestamp :=
        Int.u64 system_clock_nanos / sidekiq_system_time_interval_nanos s in
      set_sidekiq_system_timestamp sidekiq_timestamp
  else ret tt.

(** *** Telemetry *)

Definition get_pmt_tuple_from_timestamp (timestamp : Z) : Pmt.pmt_t :=
  let timestamp := Int.u64 timestamp in
  let seconds := timestamp / NANOSECONDS_IN_SECOND in
  let fractional :=
    Double.div (Double.of_Z (timestamp mod NANOSECONDS_IN_SECOND))
               (Double.of_Z 1000000000) in
  Pmt.make_tuple (Pmt.from_uint64 seconds) (Pmt.from_double fractional).

Definition get_pmt_cons_from_timestamp (timestamp : Z) : Pmt.pmt_t :=
  let timestamp := Int.u64 timestamp in
  let seconds := timestamp / NANOSECONDS_IN_SECOND in
  let fractional :=
    Double.div (Double.of_Z (timestamp mod NANOSECONDS_IN_SECOND))
               (Double.of_Z 1000000000) in
  Pmt.cons (Pmt.from_long (Int.s64 seconds)) (Pmt.from_double fractional).

Definition get_telemetry_pmt : M Pmt.pmt_t :=
  timestamp <- get_sidekiq_system_timestamp ;;
  s <- get_this ;;
  let sidekiq_time_nanos :=
    Int.u64 (timestamp * sidekiq_system_time_interval_nanos s) in
  system_clock_nanos <- call System_clock_now ;;
  let result := Pmt.make_dict in
  let result :=
    Pmt.dict_add result (Pmt.symbol CMD_CURRENT_USRP_TIME)
      (get_pmt_cons_from_timestamp sidekiq_time_nanos) in
  let result :=
    Pmt.dict_add result (Pmt.symbol CMD_CURRENT_HOST_TIME)
      (get_pmt_cons_from_timestamp system_clock_nanos) in
  ret result.

(** *** Sensors and registers *)

Definition read_accelerometer : M unit :=
  s <- get_this ;;
  r <- call (Skiq_is_accel_supported (card s)) ;;
  let supported := snd r in
  if negb supported then
    printf "Info: accelerometer not supported with product\r\n" []
  else
    _ <- call (Skiq_write_accel_state (card s) 1) ;;
    r <- call (Skiq_read_accel (card s)) ;;
    let status := fst r in
    _ <- call (Skiq_write_accel_state (card s) 0) ;;
    if negb (status =? 0) then
      printf "Error: Unable to read the accelerometer\r\n" [] ;;;
      throw "Failure: skiq_write_accel_state"
    else ret tt.

Definition read_rfic_register (address : Z) : M Z :=
  s <- get_this ;;
  r <- call (Skiq_read_rfic_reg (card s) address) ;;
  let '(status, result) := r in
  if negb (status =? 0) then
    printf "Error: failed to read RFIC address 0x%04X\n" [Arg_int address] ;;;
    throw "Failure: skiq_read_rfic_reg"
  else ret result.

Definition write_rfic_register (address data : Z) : M unit :=
  s <- get_this ;;
  status <- call (Skiq_write_rfic_reg (card s) address data) ;;
  if negb (status =? 0) then
    printf "Error: failed to write RFIC address 0x%08x\n" [Arg_int address] ;;;
    throw "Failure: skiq_write_rfic_reg"
  else ret tt.

(** The temperature is a signed byte, returned as the float of the same
    value. *)
Definition read_temperature : M Double.double :=
  s <- get_this ;;
  r <- call (Skiq_read_temp (card s)) ;;
  let '(status, temp) := r in
  if negb (status =? 0) then
    printf "Error: failed to read sidekiq on-board temperature\r\n" [] ;;;
    throw "Failure: skiq_read_temp"
  else ret (Double.of_Z temp).

(** *** Streaming *)

Definition start_streaming : M Z :=
  s <- get_this ;;
  (if dual_channel s then
     status <- call (Start_streaming_func (card s) (hdl2 s)) ;;
     if negb (status =? 0) then
       printf "Error: could not start streaming, status %d, %s\n"
         [Arg_int status; Arg_strerror_abs status] ;;;
       throw "Failure: start streaming"
     else ret tt
   else ret tt) ;;;
  status <- call (Start_streaming_func (card s) (hdl s)) ;;
  if negb (status =? 0) then
    printf "Error: could not start streaming, status %d, %s\n"
      [Arg_int status; Arg_strerror_abs status] ;;;
    throw "Failure: start streaming"
  else ret status.

Definition stop_streaming : M Z :=
  s <- get_this ;;
  (if dual_channel s then
     status <- call (Stop_streaming_func (card s) (hdl2 s)) ;;
     if negb (status =? 0) then
       printf "Error: could not stop streaming, status %d, %s\n"
         [Arg_int status; Arg_strerror_abs status] ;;;
       throw "Failure: stop streaming"
     else ret tt
   else ret tt) ;;;
  status <- call (Stop_streaming_func (card s) (hdl s)) ;;
  if negb (status =? 0) then
    printf "Error: could not stop streaming, status %d, %s\n"
      [Arg_int status; Arg_strerror_abs status] ;;;
    throw "Failure: stop streaming"
  else ret status.

(** *** Sample rate and bandwidth *)

Definition get_sample_rate (handle : Z) : M Double.double :=
  s <- get_this ;;
  r <- call (Get_sample_rate_func (card s) handle) ;;
  let '(status, (p_rate, p_actual_rate, p_bandwidth, p_actual_bandwidth)) :=
    r in
  if negb (status =? 0) then
    printf "Error: failed to get sample rate, status %d, %s\n"
      [Arg_int status; Arg_strerror_abs status] ;;;
    throw "Failure: get_samplerate"
  else ret p_actual_rate.

(** [static_cast<uintW_t>(d)] inside a method. *)
Definition cast_unsigned (w : Z) (d : Double.double) : M Z :=
  match Double.to_unsigned w d with
  | Some v => ret v
  | None => undefined
  end.

Definition set_samplerate_bandwidth (sample_rate bandwidth : Double.double)
  : M Z :=
  rate <- cast_unsigned 32 sample_rate ;;
  bw <- cast_unsigned 32 bandwidth ;;
  s <- get_this ;;
  status <- call (Set_sample_rate_func (card s) (hdl s) rate bw) ;;
  (if negb (status =? 0) then
     printf "Error: could not set sample_rate, status %d, %s\n"
       [Arg_int status; Arg_strerror_abs status] ;;;
     throw "Failure: set samplerate"
   else modify_this (with_rate_bandwidth rate bw)) ;;;
  if dual_channel s then
    status <- call (Set_sample_rate_func (card s) (hdl2 s) rate bw) ;;
    if negb (status =? 0) then
      printf "Error: could not set sample_rate, status %d, %s\n"
        [Arg_int status; Arg_strerror_abs status] ;;;
      throw "Failure: set samplerate"
    else ret status
  else ret status.

(** *** Frequency *)

Definition get_frequency (handle : Z) : M Double.double :=
  s <- get_this ;;
  r <- call (Get_frequency_func (card s) handle) ;;
  let '(status, (p_freq, p_actual_freq)) := r in
  if negb (status =? 0) then
    printf "Error: failed to get frequency, status %d, %s\n"
      [Arg_int status; Arg_strerror_abs status] ;;;
    throw "Failure: get frequency"
  else ret p_actual_freq.

Definition set_frequency (value : Double.double) : M Z :=
  s <- get_this ;;
  (if dual_channel s then
     freq <- cast_unsigned 64 value ;;
     status <- call (Set_frequency_func (card s) (hdl2 s) freq) ;;
     if negb (status =? 0) then
       printf "Error: failed to set frequency, status %d, %s\n"
         [Arg_int status; Arg_strerror_abs status] ;;;
       throw "Failure: set frequency"
     else ret tt
   else ret tt) ;;;
  freq <- cast_unsigned 64 value ;;
  status <- call (Set_frequency_func (card s) (hdl s) freq) ;;
  if negb (status =? 0) then
    printf "Error: failed to set frequency, status %d, %s\n"
      [Arg_int status; Arg_strerror_abs status] ;;;
    throw "Failure: set frequency"
  else ret status.

Definition get_timestamp (handle : Z) : M Z :=
  s <- get_this ;;
  r <- call (Get_timestamp_func (card s) handle) ;;
  let '(status, timestamp) := r in
  if negb (status =? 0) then
    printf
      "Error: failed to get sidekiq system timestamp, status %d, %s\n"
      [Arg_int status; Arg_strerror_abs status] ;;;
    throw "Failure: get timestamp"
  else ret timestamp.

(** The elapsed host time, in nanoseconds, around one frequency-set call
    at 2400e6; the status of that call is not looked at. *)
Definition get_set_frequency_call_latency (handle : Z) : M Z :=
  s <- get_this ;;
  start <- call System_clock_now ;;
  let frequency := 2400000000 in
  _ <- call (Set_frequency_func (card s) handle frequency) ;;
  stop <- call System_clock_now ;;
  ret (Int.s64 (stop - start)).

(** *** Filter *)

Definition set_filter_parameters (coeffs : list Z) : M unit :=
  s <- get_this ;;
  status <- call (Set_rfic_fir_coeffs_func (card s) coeffs) ;;
  if negb (status =? 0) then
    printf "Error: failed to set fir coeffs, status %d, %s\n"
      [Arg_int status; Arg_strerror_abs status] ;;;
    throw "Failure:  set fir coeffs"
  else ret tt.

(** The loop [for (count = 0; count < num_taps; count++)] over the local
    array [coeffs[128]], with [todo] iterations left; reading past the
    array is undefined. *)
Fixpoint print_taps (coeffs : list Z) (count : Z) (todo : nat) : M unit :=
  match todo with
  | O => ret tt
  | S todo' =>
      match nth_error coeffs (Z.to_nat count) with
      | Some c =>
          if count <? 128 then
            printf "%03d,%05d\n" [Arg_int count; Arg_int c] ;;;
            print_taps coeffs (count + 1) todo'
          else undefined
      | None => undefined
      end
  end.

Definition get_filter_parameters : M unit :=
  s <- get_this ;;
  r <- call (Get_rfic_fir_config_func (card s)) ;;
  let '(status, (num_taps, decimation)) := r in
  if negb (status =? 0) then
    printf "Error: failed to get fir config, status %d, %s\n"
      [Arg_int status; Arg_strerror_abs status] ;;;
    throw "Failure:  get fir config"
  else
    r <- call (Get_rfic_fir_coeffs_func (card s)) ;;
    let '(status, coeffs) := r in
    if negb (status =? 0) then
      printf "Error: failed to get fir coeffs, status %d, %s\n"
        [Arg_int status; Arg_strerror_abs status] ;;;
      throw "Failure:  get fir coeffs"
    else
      printf "FIR decimation: %d\n" [Arg_int decimation] ;;;
      printf "FIR num taps: %d\n" [Arg_int num_taps] ;;;
      printf "FIR taps:\n" [] ;;;
      print_taps coeffs 0 (Z.to_nat num_taps) ;;;
      printf "\n\n" [].

(** *** Construction *)

(** [(pow(2.0f, resolution) / 2.0) - 1]. *)
Definition full_scale (resolution : Z) : Double.double :=
  Double.sub (Double.div (Double.pow2 resolution) (Double.of_Z 2))
             (Double.of_Z 1).

Definition construct (input_card_number sync_type : Z)
    (port1_handle port2_handle : Z) : M unit :=
  modify_this
    (with_ports (Int.u8 input_card_number) port1_handle port2_handle) ;;;
  s <- get_this ;;
  status <- call (Skiq_init (card s) NUM_CARDS) ;;
  if negb (status =? 0) then
    printf "Error: unable to initialize libsidekiq with status %d\n"
      [Arg_int status] ;;;
    throw "Failure: skiq_init"
  else
    frequency <- get_sys_timestamp_frequency ;;
    modify_this (with_timestamp_frequency frequency) ;;;
    (if frequency =? 0 then undefined
     else modify_this
            (with_interval_nanos (NANOSECONDS_IN_SECOND / frequency))) ;;;
    r <- call (Skiq_read_parameters (card s)) ;;
    let params := snd r in
    modify_this
      (with_params params
         (full_scale (rx_iq_resolution params (hdl s)))
         (full_scale (tx_iq_resolution params (hdl s)))) ;;;
    set_sync_type sync_type.

(** *** The public operations, as one family *)

Inductive operation : Type :=
| Op_construct (input_card_number sync_type port1 port2 : Z)
| Op_get_telemetry_pmt
| Op_set_sync_type (type : Z)
| Op_get_ref_clock_configuration
| Op_set_zero_timestamp
| Op_set_next_pps_timestamp
| Op_get_last_pps_timestamp
| Op_set_sidekiq_system_timestamp (timestamp : Z)
| Op_get_sidekiq_system_timestamp
| Op_get_sys_timestamp_frequency
| Op_read_accelerometer
| Op_read_rfic_register (address : Z)
| Op_write_rfic_register (address data : Z)
| Op_read_temperature
| Op_start_streaming
| Op_stop_streaming
| Op_get_sample_rate (handle : Z)
| Op_set_samplerate_bandwidth (sample_rate bandwidth : Double.double)
| Op_get_frequency (handle : Z)
| Op_set_frequency (value : Double.double)
| Op_get_timestamp (handle : Z)
| Op_get_set_frequency_call_latency (handle : Z)
| Op_set_filter_parameters (coeffs : list Z)
| Op_get_filter_parameters.

(** Forget the returned value. *)
Definition void {A} (m : M A) : M unit := _ <- m ;; ret tt.

Definition perform (op : operation) : M unit :=
  match op with
  | Op_construct c t p1 p2 => construct c t p1 p2
  | Op_get_telemetry_pmt => void get_telemetry_pmt
  | Op_set_sync_type t => set_sync_type t
  | Op_get_ref_clock_configuration => void get_ref_clock_configuration
  | Op_set_zero_timestamp => set_zero_timestamp
  | Op_set_next_pps_timestamp => set_next_pps_timestamp
  | Op_get_last_pps_timestamp => void get_last_pps_timestamp
  | Op_set_sidekiq_system_timestamp t => set_sidekiq_system_timestamp t
  | Op_get_sidekiq_system_timestamp => void get_sidekiq_system_timestamp
  | Op_get_sys_timestamp_frequency => void get_sys_timestamp_frequency
  | Op_read_accelerometer => read_accelerometer
  | Op_read_rfic_register a => void (read_rfic_register a)
  | Op_write_rfic_register a d => write_rfic_register a d
  | Op_read_temperature => void read_temperature
  | Op_start_streaming => void start_streaming
  | Op_stop_streaming => void stop_streaming
  | Op_get_sample_rate h => void (get_sample_rate h)
  | Op_set_samplerate_bandwidth r b => void (set_samplerate_bandwidth r b)
  | Op_get_frequency h => void (get_frequency h)
  | Op_set_frequency v => void (set_frequency v)
  | Op_get_timestamp h => void (get_timestamp h)
  | Op_get_set_frequency_call_latency h =>
      void (get_set_frequency_call_latency h)
  | Op_set_filter_parameters c => set_filter_parameters c
  | Op_get_filter_parameters => get_filter_parameters
  end.

End Adapter.

Arguments this {H} w.
Arguments hw {H} w.

(** ** Reading the result of a run *)

Definition result_of {W A} (r : outcome A * W * list event) : outcome A :=
  fst (fst r).
Definition final {W A} (r : outcome A * W * list event) : W := snd (fst r).
Definition log_of {W A} (r : outcome A * W * list event) : list event :=
  snd r.

(** An external call without its reply. *)
Inductive invocation : Type :=
| Invoke {R : Type} (c : ext_call R).

(** The vendor calls of a log, in the order they were made. *)
Fixpoint invoked (l : list event) : list invocation :=
  match l with
  | [] => []
  | Call c _ :: l' =>
      if is_vendor c then Invoke c :: invoked l' else invoked l'
  | Printf _ _ :: l' => invoked l'
  end.

(** ** Scripted hardware, for concrete runs *)

Module Script.

Definition params : skiq_param_t :=
  {| rx_iq_resolution := fun _ => 12; tx_iq_resolution := fun _ => 12 |}.

(** A reply with the given status; the host clock answers [now]. *)
Definition reply (status now : Z) (supported : bool) {R} (c : ext_call R)
  : R :=
  match c in ext_call R return R with
  | Skiq_init _ _ => status
  | Skiq_read_parameters _ => (status, params)
  | Skiq_read_ref_clock_select _ => (status, 0)
  | Skiq_reset_timestamps _ => status
  | Skiq_write_timestamp_update_on_1pps _ _ _ => status
  | Skiq_read_last_1pps_timestamp _ => (status, (0, 0))
  | Skiq_update_timestamps _ _ => status
  | Skiq_read_curr_sys_timestamp _ => (status, 123456789)
  | Skiq_read_sys_timestamp_freq _ => (status, 40000000)
  | Skiq_is_accel_supported _ => (status, supported)
  | Skiq_write_accel_state _ _ => status
  | Skiq_read_accel _ => (status, (0, 0, 16384))
  | Skiq_read_rfic_reg _ _ => (status, 0)
  | Skiq_write_rfic_reg _ _ _ => status
  | Skiq_read_temp _ => (status, 35)
  | Start_streaming_func _ _ => status
  | Stop_streaming_func _ _ => status
  | Get_sample_rate_func _ _ =>
      (status, (1000000, Double.of_Z 1000000, 800000, 800000))
  | Set_sample_rate_func _ _ _ _ => status
  | Get_frequency_func _ _ => (status, (2450000000, Double.of_Z 2450000000))
  | Set_frequency_func _ _ _ => status
  | Get_timestamp_func _ _ => (status, 0)
  | Set_rfic_fir_coeffs_func _ _ => status
  | Get_rfic_fir_config_func _ => (status, (0, 1))
  | Get_rfic_fir_coeffs_func _ => (status, [])
  | System_clock_now => now
  end.

Definition now : Z := 1700000000123456789.

(** Hardware on which every call reports [status]. *)
Definition always (status : Z) (supported : bool)
  : forall R : Type, ext_call R -> unit -> R * unit :=
  fun R c _ => (reply status now supported c, tt).

Definition blank : sidekiq_base :=
  {| card := 0; hdl := 0; hdl2 := 1; dual_channel := false; debug_ctr := 0;
     sample_rate := 0; bandwidth := 0; timestamp_frequency := 40000000;
     sidekiq_system_time_interval_nanos := 25;
     sidekiq_params := params;
     adc_scaling := Double.of_Z 2047; dac_scaling := Double.of_Z 2047 |}.

Definition dual : sidekiq_base :=
  {| card := 0; hdl := 0; hdl2 := 1; dual_channel := true; debug_ctr := 0;
     sample_rate := 0; bandwidth := 0; timestamp_frequency := 40000000;
     sidekiq_system_time_interval_nanos := 25;
     sidekiq_params := params;
     adc_scaling := Double.of_Z 2047; dac_scaling := Double.of_Z 2047 |}.

(** Hardware that accepts everything, and a one-channel and a
    two-channel adapter on it. *)
Definition quiet := always 0 true.
Definition single : world unit := {| this := blank; hw := tt |}.
Definition paired : world unit := {| this := dual; hw := tt |}.

End Script.

(** A telemetry entry: a pair of whole seconds and a fraction of a second
    in [[0, 1)]. *)
Definition telemetry_entry (v : Pmt.pmt_t) : Prop :=
  exists seconds fractional,
    v = Pmt.cons (Pmt.from_long seconds) (Pmt.from_double fractional) /\
    Double.leb (S754_zero false) fractional = true /\
    Double.ltb fractional Double.one = true.

(** ** What the claims say *)

(** The shape shared by the dual-channel fan-outs that go secondary first:
    the log opens with the call [c2] on the secondary handle; if that call
    reports a non-zero status the method throws [what] and makes no further
    vendor call; otherwise the one vendor call that follows is [c1], on the
    primary handle. *)
Definition secondary_then_primary {W A} (run : outcome A * W * list event)
    (c2 c1 : ext_call Z) (what : string) : Prop :=
  exists st2 rest,
    log_of run = Call c2 st2 :: rest /\
    (st2 <> 0 -> invoked rest = [] /\ result_of run = Throws what) /\
    (st2 = 0 -> invoked rest = [Invoke c1]).

Definition primary_only {W A} (run : outcome A * W * list event)
    (c1 : ext_call Z) : Prop :=
  invoked (log_of run) = [Invoke c1].

(** C1 as the specification words it: for non-negative [r] and [b] and a
    primary-channel call that succeeds, the cache afterwards holds
    [floor r] and [floor b]. *)
Definition caches_floor_on_success {H}
    (sdk : forall R : Type, ext_call R -> H -> R * H)
    (w : world H) (r b : Double.double) : Prop :=
  Double.nonneg r = true -> Double.nonneg b = true ->
  (forall rate bw,
     fst (sdk Z (Set_sample_rate_func (card (this w)) (hdl (this w)) rate bw)
            (hw w)) = 0) ->
  let run := set_samplerate_bandwidth H sdk r b w in
  Double.floor r = Some (sample_rate (this (final run))) /\
  Double.floor b = Some (bandwidth (this (final run))).

(** The calls whose status the adapter looks at.  It does not look at the
    status of the parameter query of the constructor, of the accelerometer
    support query and of the accelerometer power commands. *)
Definition status_checked {R} (c : ext_call R) : bool :=
  match c with
  | Skiq_read_parameters _ => false
  | Skiq_is_accel_supported _ => false
  | Skiq_write_accel_state _ _ => false
  | System_clock_now => false
  | _ => true
  end.

(** The text of the failure that names a call; the accelerometer read is
    left open. *)
Definition failure_text {R} (c : ext_call R) : option string :=
  match c with
  | Skiq_init _ _ => Some "Failure: skiq_init"
  | Skiq_read_ref_clock_select _ =>
      Some "Failure: skiq_read_ref_clock_select"
  | Skiq_reset_timestamps _ => Some "Failure: skiq_reset_timestamps"
  | Skiq_write_timestamp_update_on_1pps _ _ _ =>
      Some "Failure: skiq_write_timestamp_update_on_1pps"
  | Skiq_read_last_1pps_timestamp _ =>
      Some "Failure: skiq_read_last_1pps_timestamp"
  | Skiq_update_timestamps _ _ => Some "Failure: skiq_update_timestamps"
  | Skiq_read_curr_sys_timestamp _ =>
      Some "Failure: skiq_read_curr_sys_timestamp"
  | Skiq_read_sys_timestamp_freq _ =>
      Some "Failure: skiq_read_sys_timestamp_freq"
  | Skiq_read_rfic_reg _ _ => Some "Failure: skiq_read_rfic_reg"
  | Skiq_write_rfic_reg _ _ _ => Some "Failure: skiq_write_rfic_reg"
  | Skiq_read_temp _ => Some "Failure: skiq_read_temp"
  | Start_streaming_func _ _ => Some "Failure: start streaming"
  | Stop_streaming_func _ _ => Some "Failure: stop streaming"
  | Get_sample_rate_func _ _ => Some "Failure: get_samplerate"
  | Set_sample_rate_func _ _ _ _ => Some "Failure: set samplerate"
  | Get_frequency_func _ _ => Some "Failure: get frequency"
  | Set_frequency_func _ _ _ => Some "Failure: set frequency"
  | Get_timestamp_func _ _ => Some "Failure: get timestamp"
  | Set_rfic_fir_coeffs_func _ _ => Some "Failure:  set fir coeffs"
  | Get_rfic_fir_config_func _ => Some "Failure:  get fir config"
  | Get_rfic_fir_coeffs_func _ => Some "Failure:  get fir coeffs"
  | _ => None
  end.

Definition event_checked (e : event) : bool :=
  match e with
  | Call c _ => status_checked c
  | Printf _ _ => false
  end.

Definition names_failure (e : event) (what : string) : Prop :=
  match e with
  | Call c _ =>
      match failure_text c with
      | Some text => what = text
      | None => True
      end
  | Printf _ _ => True
  end.

(** C2 as the specification words it: a run in which some vendor call
    reported a non-zero status ends in a throw. *)
Definition no_masked_failure {W A} (run : outcome A * W * list event)
  : Prop :=
  forall e, In e (log_of run) -> event_is_vendor e = true ->
            event_status e <> 0 ->
            exists what, result_of run = Throws what.

(** The same for the calls whose status is looked at, with the failure
    naming the call. *)
Definition reports_failures {W A} (run : outcome A * W * list event)
  : Prop :=
  forall e, In e (log_of run) -> event_checked e = true ->
            event_status e <> 0 ->
            exists what, result_of run = Throws what /\ names_failure e what.

(** ** What the further properties say *)

(** The operations that assign to data members: the constructor and
    [set_samplerate_bandwidth]. *)
Definition assigns_members (op : operation) : bool :=
  match op with
  | Op_construct _ _ _ _ => true
  | Op_set_samplerate_bandwidth _ _ => true
  | _ => false
  end.

(** Two adapter objects that differ at most in the cached sample rate and
    bandwidth. *)
Definition same_except_cache (a b : sidekiq_base) : Prop :=
  card a = card b /\ hdl a = hdl b /\ hdl2 a = hdl2 b /\
  dual_channel a = dual_channel b /\ debug_ctr a = debug_ctr b /\
  timestamp_frequency a = timestamp_frequency b /\
  sidekiq_system_time_interval_nanos a =
    sidekiq_system_time_interval_nanos b /\
  sidekiq_params a = sidekiq_params b /\
  adc_scaling a = adc_scaling b /\ dac_scaling a = dac_scaling b.

(** The last event of a log (a print of nothing when the log is empty). *)
Definition last_event (l : list event) : event := last l (Printf "" []).

(** An error line: a print whose format starts with ["Error:"]. *)
Definition is_error_line (e : event) : bool :=
  match e with
  | Printf format _ => String.prefix "Error:" format
  | Call _ _ => false
  end.

(** A call made through the dispatch table [sidekiq_functions]. *)
Definition through_dispatch_table {R} (c : ext_call R) : bool :=
  match c with
  | Start_streaming_func _ _ => true
  | Stop_streaming_func _ _ => true
  | Get_sample_rate_func _ _ => true
  | Set_sample_rate_func _ _ _ _ => true
  | Get_frequency_func _ _ => true
  | Set_frequency_func _ _ _ => true
  | Get_timestamp_func _ _ => true
  | Set_rfic_fir_coeffs_func _ _ => true
  | Get_rfic_fir_config_func _ => true
  | Get_rfic_fir_coeffs_func _ => true
  | _ => false
  end.

Definition event_through_dispatch_table (e : event) : bool :=
  match e with
  | Call c _ => through_dispatch_table c
  | Printf _ _ => false
  end.

(** A checked call that reported a non-zero status. *)
Definition event_failed (e : event) : bool :=
  event_checked e && negb (event_status e =? 0).

(** No vendor call follows the first failed call of the log. *)
Fixpoint stops_at_failure (l : list event) : bool :=
  match l with
  | [] => true
  | e :: l' =>
      if event_failed e then
        match invoked l' with [] => true | _ => false end
      else stops_at_failure l'
  end.

(** The line [get_filter_parameters] prints for tap [count]. *)
Definition tap_line (coeffs : list Z) (count : nat) : event :=
  Printf "%03d,%05d\n"
    [Arg_int (Z.of_nat count); Arg_int (nth count coeffs 0)].

(** A caller that performs operations one after the other, catching what
    they throw and going on; it stops where the behaviour is undefined.
    The result is the final state and the whole log. *)
Fixpoint session {H} (sdk : forall R : Type, ext_call R -> H -> R * H)
    (usrp_time host_time : string) (ops : list operation) (w : world H)
  : world H * list event :=
  match ops with
  | [] => (w, [])
  | op :: ops' =>
      let '(o, w1, l1) := perform H sdk usrp_time host_time op w in
      match o with
      | Undefined => (w1, l1)
      | _ =>
          let '(w2, l2) := session sdk usrp_time host_time ops' w1 in
          (w2, l1 ++ l2)
      end
  end.

(** The rate and bandwidth of a sample-rate write that succeeded. *)
Definition written {R} (c : ext_call R) : R -> option (Z * Z) :=
  match c in ext_call R return R -> option (Z * Z) with
  | Set_sample_rate_func _ _ rate bw =>
      fun status => if status =? 0 then Some (rate, bw) else None
  | _ => fun _ => None
  end.

(** The rate and bandwidth last written with success in a log, or
    [initial] if there is no such write. *)
Fixpoint last_written (l : list event) (initial : Z * Z) : Z * Z :=
  match l with
  | [] => initial
  | Call c r :: l' =>
      match written c r with
      | Some rb => last_written l' rb
      | None => last_written l' initial
      end
  | Printf _ _ :: l' => last_written l' initial
  end.

Definition cache (s : sidekiq_base) : Z * Z := (sample_rate s, bandwidth s).

Definition is_construct (op : operation) : bool :=
  match op with
  | Op_construct _ _ _ _ => true
  | _ => false
  end.

(** ** More scripted hardware *)

Module Lab.

(** Hardware that reports the timestamp frequency [frequency] and
    otherwise accepts everything. *)
Definition clocked (frequency : Z)
  : forall R : Type, ext_call R -> unit -> R * unit :=
  fun R c _ =>
    (match c in ext_call R return R -> R with
     | Skiq_read_sys_timestamp_freq _ => fun _ => (0, frequency)
     | _ => fun r => r
     end (Script.reply 0 Script.now true c), tt).

(** The 128 coefficients 0, 1, ..., 127. *)
Definition ramp : list Z := map Z.of_nat (seq 0 128).

(** Hardware whose filter has [num_taps] taps, decimation 2 and the
    coefficients [ramp]. *)
Definition filtering (num_taps : Z)
  : forall R : Type, ext_call R -> unit -> R * unit :=
  fun R c _ =>
    (match c in ext_call R return R -> R with
     | Get_rfic_fir_config_func _ => fun _ => (0, (num_taps, 2))
     | Get_rfic_fir_coeffs_func _ => fun _ => (0, ramp)
     | _ => fun r => r
     end (Script.reply 0 Script.now true c), tt).

(** Hardware whose first [k] calls succeed and whose later calls report
    the status [-5]; its state counts the calls made. *)
Definition tiring (k : nat)
  : forall R : Type, ext_call R -> nat -> R * nat :=
  fun R c n =>
    (Script.reply (if (n <? k)%nat then 0 else -5) Script.now true c, S n).

Definition fresh_pair : world nat := {| this := Script.dual; hw := O |}.

End Lab.

(** * Properties *)

(** ** Rounding of binary64 quotients

    The fraction of a second is a rounded quotient.  These lemmas follow
    the rounding of [SFdiv] far enough to bound it: the two shifts divide
    the mantissa by a power of two, rounding to nearest adds at most one
    unit, so a quotient at most [1 - 10^-9] cannot round up to [1]. *)

Lemma digits2_pos_bounds (p : positive) :
  2 ^ (Z.pos (digits2_pos p) - 1) <= Z.pos p < 2 ^ Z.pos (digits2_pos p).
Proof.
  induction p as [p IH | p IH |]; cbn [digits2_pos].
  - rewrite Pos2Z.inj_succ, Z.pow_succ_r by lia.
    replace (Z.succ (Z.pos (digits2_pos p)) - 1)
      with (Z.succ (Z.pos (digits2_pos p) - 1)) by lia.
    rewrite Z.pow_succ_r by lia. lia.
  - rewrite Pos2Z.inj_succ, Z.pow_succ_r by lia.
    replace (Z.succ (Z.pos (digits2_pos p)) - 1)
      with (Z.succ (Z.pos (digits2_pos p) - 1)) by lia.
    rewrite Z.pow_succ_r by lia. lia.
  - cbn. lia.
Qed.

Lemma Zdigits2_upper (m k : Z) :
  0 <= m < 2 ^ k -> 0 <= k -> 0 <= Zdigits2 m <= k.
Proof.
  intros [Hm Hlt] Hk. destruct m as [| p | p]; cbn [Zdigits2]; try lia.
  pose proof (digits2_pos_bounds p) as [Hlo _].
  split; [lia |].
  destruct (Z.le_gt_cases (Z.pos (digits2_pos p)) k) as [| Hgt]; [assumption |].
  assert (2 ^ k <= 2 ^ (Z.pos (digits2_pos p) - 1))
    by (apply Z.pow_le_mono_r; lia).
  lia.
Qed.

Lemma shr_1_m (mrs : shr_record) :
  0 <= shr_m mrs -> shr_m (shr_1 mrs) = shr_m mrs / 2.
Proof.
  destruct mrs as [m r s]. cbn [shr_m]. intros Hm.
  destruct m as [| [p | p |] | p]; cbn [shr_1 shr_m]; try lia.
  all: (apply Z.div_unique with 1; lia) ||
        (apply Z.div_unique with 0; lia) || reflexivity.
Qed.

Lemma iter_shr_1_m (n : positive) :
  forall mrs, 0 <= shr_m mrs ->
    shr_m (iter_pos shr_1 n mrs) = shr_m mrs / 2 ^ Z.pos n.
Proof.
  assert (Hdiv : forall a b c, 0 < b -> 0 < c -> (a / b) / c = a / (b * c))
    by (intros; apply Z.div_div; lia).
  assert (Hnn : forall a b, 0 <= a -> 0 < b -> 0 <= a / b)
    by (intros; apply Z.div_pos; lia).
  induction n as [n IH | n IH |]; intros mrs Hm; cbn [iter_pos].
  - assert (Hp : 0 < 2 ^ Z.pos n) by (apply Z.pow_pos_nonneg; lia).
    rewrite IH, IH, shr_1_m by
      (rewrite ?IH, ?shr_1_m; try assumption;
       rewrite ?shr_1_m by assumption; auto with zarith).
    rewrite !Hdiv by lia. f_equal.
    replace (Z.pos n~1) with (Z.pos n + Z.pos n + 1) by lia.
    rewrite !Z.pow_add_r, Z.pow_1_r by lia. ring.
  - assert (Hp : 0 < 2 ^ Z.pos n) by (apply Z.pow_pos_nonneg; lia).
    rewrite IH, IH by (rewrite ?IH; auto with zarith).
    rewrite !Hdiv by lia. f_equal.
    replace (Z.pos n~0) with (Z.pos n + Z.pos n) by lia.
    rewrite !Z.pow_add_r by lia. ring.
  - rewrite shr_1_m by assumption. reflexivity.
Qed.

Lemma shr_spec (mrs : shr_record) (e n : Z) :
  0 <= shr_m mrs ->
  shr_m (fst (shr mrs e n)) = shr_m mrs / 2 ^ Z.max n 0 /\
  snd (shr mrs e n) = e + Z.max n 0.
Proof.
  intros Hm. destruct n as [| p | p]; cbn [shr fst snd].
  - rewrite Z.max_id. cbn. rewrite Z.div_1_r. lia.
  - rewrite Z.max_l by lia. rewrite iter_shr_1_m by assumption. lia.
  - rewrite Z.max_r by lia. cbn. rewrite Z.div_1_r. lia.
Qed.

Lemma shr_record_of_loc_m (m : Z) (l : location) :
  shr_m (shr_record_of_loc m l) = m.
Proof. destruct l as [| []]; reflexivity. Qed.

Lemma round_nearest_even_bounds (m : Z) (l : location) :
  m <= round_nearest_even m l <= m + 1.
Proof.
  destruct l as [| []]; cbn [round_nearest_even];
    try destruct (Z.even m); lia.
Qed.

Lemma binary_round_aux_below_one (mx ex : Z) (lx : location) :
  0 <= mx -> -1074 <= ex <= -53 ->
  mx * 1000000000 <= 2 ^ (- ex) * 999999999 ->
  let r := binary_round_aux 53 1024 false mx ex lx in
  SFleb (S754_zero false) r = true /\ SFltb r Double.one = true.
Proof.
  intros Hmx Hex Hval. cbv zeta. unfold binary_round_aux, shr_fexp.
  (* first shift *)
  assert (HP : 2 ^ 53 <= 2 ^ (- ex)) by (apply Z.pow_le_mono_r; lia).
  assert (Hlt : mx < 2 ^ (- ex)) by lia.
  pose proof (Zdigits2_upper mx (- ex) (conj Hmx Hlt) ltac:(lia)) as Hd.
  set (n1 := fexp 53 1024 (Zdigits2 mx + ex) - ex).
  assert (Hn1 : ex + Z.max n1 0 <= -53)
    by (unfold n1, fexp, emin; lia).
  destruct (shr_spec (shr_record_of_loc mx lx) ex n1) as [Hm0 He1];
    [rewrite shr_record_of_loc_m; assumption |].
  rewrite shr_record_of_loc_m in Hm0.
  destruct (shr (shr_record_of_loc mx lx) ex n1) as [mrs' e1].
  cbn [fst snd] in Hm0, He1.
  (* rounding *)
  set (N1 := Z.max n1 0) in *.
  assert (HN1 : 0 <= N1) by (unfold N1; lia).
  assert (Hpow : 0 < 2 ^ N1) by (apply Z.pow_pos_nonneg; lia).
  assert (HQ : 2 ^ 53 <= 2 ^ (- e1)) by (apply Z.pow_le_mono_r; lia).
  assert (HPQ : 2 ^ (- ex) = 2 ^ (- e1) * 2 ^ N1).
  { rewrite <- Z.pow_add_r by lia. f_equal. lia. }
  assert (Ht0 : 0 <= shr_m mrs') by (rewrite Hm0; apply Z.div_pos; lia).
  assert (Ht : shr_m mrs' * 2 ^ N1 <= mx).
  { rewrite Hm0, Z.mul_comm. apply Z.mul_div_le. lia. }
  assert (Ht1 : shr_m mrs' * 1000000000 <= 2 ^ (- e1) * 999999999).
  { apply (Z.mul_le_mono_pos_r _ _ (2 ^ N1)); [assumption |].
    rewrite HPQ in Hval. nia. }
  pose proof (round_nearest_even_bounds (shr_m mrs')
                (loc_of_shr_record mrs')) as Hr.
  set (m1 := round_nearest_even (shr_m mrs') (loc_of_shr_record mrs')) in *.
  assert (Hm1 : 0 <= m1 < 2 ^ (- e1)) by lia.
  (* second shift *)
  pose proof (Zdigits2_upper m1 (- e1) Hm1 ltac:(lia)) as Hd1.
  set (n2 := fexp 53 1024 (Zdigits2 m1 + e1) - e1).
  assert (Hn2 : e1 + Z.max n2 0 <= -53)
    by (unfold n2, fexp, emin; lia).
  destruct (shr_spec (shr_record_of_loc m1 loc_Exact) e1 n2) as [Hm2 He2];
    [rewrite shr_record_of_loc_m; lia |].
  rewrite shr_record_of_loc_m in Hm2.
  destruct (shr (shr_record_of_loc m1 loc_Exact) e1 n2) as [mrs'' e2].
  cbn [fst snd] in Hm2, He2.
  assert (Hm2' : 0 <= shr_m mrs'').
  { rewrite Hm2. apply Z.div_pos; [lia |]. apply Z.pow_pos_nonneg; lia. }
  destruct (shr_m mrs'') as [| m | m]; [split; reflexivity | | lia].
  destruct (Z.leb_spec e2 (1024 - 53)); [| lia].
  split; [reflexivity |].
  unfold SFltb, SFcompare, Double.one.
  assert (Hc : (e2 ?= -52) = Lt) by (apply Z.compare_lt_iff; lia).
  rewrite Hc. reflexivity.
Qed.

Lemma iter_xO_value (p d : positive) :
  Z.pos (Pos.iter xO p d) = Z.pos p * 2 ^ Z.pos d /\
  Z.pos (digits2_pos (Pos.iter xO p d)) = Z.pos (digits2_pos p) + Z.pos d.
Proof.
  induction d as [| d IH] using Pos.peano_ind.
  - cbn [Pos.iter digits2_pos]. rewrite Pos2Z.inj_succ. lia.
  - rewrite Pos.iter_succ. cbn [digits2_pos].
    rewrite !Pos2Z.inj_succ, Z.pow_succ_r by lia.
    destruct IH as [IHv IHd]. rewrite IHd, Pos2Z.inj_xO, IHv. lia.
Qed.

Lemma binary_round_aux_canonical (m : positive) (e : Z) :
  Z.pos (digits2_pos m) = 53 -> -1074 <= e <= 971 ->
  binary_round_aux 53 1024 false (Z.pos m) e loc_Exact = S754_finite false m e.
Proof.
  intros Hd He. unfold binary_round_aux, shr_fexp. cbn [Zdigits2].
  rewrite Hd.
  replace (fexp 53 1024 (53 + e) - e) with 0 by (unfold fexp, emin; lia).
  cbn [shr shr_record_of_loc shr_m loc_of_shr_record round_nearest_even
       Zdigits2].
  rewrite Hd.
  replace (fexp 53 1024 (53 + e) - e) with 0 by (unfold fexp, emin; lia).
  cbn [shr shr_record_of_loc shr_m].
  destruct (Z.leb_spec e (1024 - 53)); [reflexivity | lia].
Qed.

Lemma of_Z_pos (p : positive) :
  let k := Z.pos (digits2_pos p) in
  k < 53 ->
  exists m,
    Double.of_Z (Z.pos p) = S754_finite false m (k - 53) /\
    Z.pos m = Z.pos p * 2 ^ (53 - k) /\
    Z.pos (digits2_pos m) = 53.
Proof.
  intros k Hk.
  unfold Double.of_Z, binary_normalize, binary_round, shl_align.
  fold k.
  replace (fexp Double.prec Double.emax (k + 0) - 0) with (k - 53)
    by (unfold fexp, emin, Double.prec, Double.emax; lia).
  replace (fexp Double.prec Double.emax (k + 0)) with (k - 53)
    by (unfold fexp, emin, Double.prec, Double.emax; lia).
  destruct (k - 53) as [| d | d] eqn:Ed; try lia.
  destruct (iter_xO_value p d) as [Hv Hdig].
  exists (Pos.iter xO p d).
  assert (Hd53 : Z.pos (digits2_pos (Pos.iter xO p d)) = 53)
    by (rewrite Hdig; fold k; lia).
  split; [| split].
  - apply binary_round_aux_canonical; [assumption | lia].
  - rewrite Hv. f_equal. f_equal. lia.
  - assumption.
Qed.

Lemma fractional_in_unit_interval (n : Z) :
  0 <= n < 1000000000 ->
  let f := Double.div (Double.of_Z n) (Double.of_Z 1000000000) in
  Double.leb (S754_zero false) f = true /\
  Double.ltb f Double.one = true.
Proof.
  intros Hn. cbv zeta.
  change (Double.of_Z 1000000000)
    with (S754_finite false 8388608000000000 (-23)).
  destruct n as [| p | p]; [split; reflexivity | | lia].
  assert (Hk : 0 <= Zdigits2 (Z.pos p) <= 30)
    by (apply Zdigits2_upper; [change (2 ^ 30) with 1073741824 |]; lia).
  cbn [Zdigits2] in Hk.
  destruct (of_Z_pos p ltac:(lia)) as (m & -> & Hm & Hd).
  set (k := Z.pos (digits2_pos p)) in *.
  unfold Double.div, SFdiv, SFdiv_core_binary. cbn [xorb Zdigits2].
  rewrite Hd. change (Z.pos (digits2_pos 8388608000000000)) with 53.
  replace (Z.min (fexp Double.prec Double.emax (53 + (k - 53) - (53 + -23)))
                 (k - 53 - -23)) with (k - 83)
    by (unfold fexp, emin, Double.prec, Double.emax; lia).
  replace (k - 53 - -23 - (k - 83)) with 53 by lia.
  rewrite Z.shiftl_mul_pow2 by lia.
  pose proof (Z_div_mod (Z.pos m * 2 ^ 53) 8388608000000000 eq_refl)
    as Hdiv.
  destruct (Z.div_eucl (Z.pos m * 2 ^ 53) 8388608000000000) as [q r].
  destruct Hdiv as [Heq Hr].
  assert (Hpk : 0 < 2 ^ (53 - k)) by (apply Z.pow_pos_nonneg; lia).
  assert (Hq : 0 <= q) by nia.
  apply binary_round_aux_below_one; [assumption | lia |].
  replace (- (k - 83)) with ((53 - k) + 30) by lia.
  rewrite Z.pow_add_r by lia. change (2 ^ 30) with 1073741824.
  change (2 ^ 53) with 9007199254740992 in Heq.
  rewrite Hm in Heq. nia.
Qed.


(** ** The adapter *)

Section Properties.

Variable H : Type.
Variable sdk : forall R : Type, ext_call R -> H -> R * H.
Variable CMD_CURRENT_USRP_TIME : string.
Variable CMD_CURRENT_HOST_TIME : string.

Ltac unfold_method :=
  unfold secondary_then_primary, primary_only,
    result_of, final, log_of, void,
    start_streaming, stop_streaming, set_frequency, set_samplerate_bandwidth,
    cast_unsigned, read_accelerometer, set_sync_type, set_zero_timestamp,
    set_sidekiq_system_timestamp, bind, call, printf, throw, ret, undefined,
    get_this, modify_this;
  cbn [this hw fst snd].

(** Name the reply of the next external call. *)
Ltac next_call :=
  match goal with
  | |- context [sdk ?R ?c ?h] =>
      let r := fresh "reply" in
      let h' := fresh "h" in
      let E := fresh "Ecall" in
      destruct (sdk R c h) as [r h'] eqn:E; cbn [this hw fst snd negb]
  end.

(** Split on the next status test. *)
Ltac split_status :=
  match goal with
  | |- context [Z.eqb ?st 0] =>
      let E := fresh "Est" in
      destruct (Z.eqb_spec st 0) as [E | E];
      cbn [this hw fst snd negb app invoked is_vendor]
  end.

Ltac fan_out :=
  next_call;
  match goal with
  | r : Z |- exists st2 rest, _ => exists r
  end;
  split_status;
  [ next_call; split_status | ];
  eexists; (split; [reflexivity |]);
  split; intros; try congruence; try split; reflexivity.

(** C3.  With two channels, [start_streaming] and [stop_streaming] each
    operate on the secondary handle first and on the primary handle only
    after it; with one channel they operate on the primary handle only. *)
Theorem streaming_secondary_first (w : world H) :
  let s := this w in
  if dual_channel s then
    secondary_then_primary (start_streaming H sdk w)
      (Start_streaming_func (card s) (hdl2 s))
      (Start_streaming_func (card s) (hdl s)) "Failure: start streaming" /\
    secondary_then_primary (stop_streaming H sdk w)
      (Stop_streaming_func (card s) (hdl2 s))
      (Stop_streaming_func (card s) (hdl s)) "Failure: stop streaming"
  else
    primary_only (start_streaming H sdk w)
      (Start_streaming_func (card s) (hdl s)) /\
    primary_only (stop_streaming H sdk w)
      (Stop_streaming_func (card s) (hdl s)).
Proof.
  cbv zeta. destruct (dual_channel (this w)) eqn:Hd.
  - split; unfold_method; rewrite Hd; fan_out.
  - split; unfold_method; rewrite Hd; cbn [this hw fst snd];
      next_call; split_status; reflexivity.
Qed.

(** C4.  With two channels, [set_frequency(value)] passes the same target,
    [value] truncated to an unsigned 64-bit integer, first to the secondary
    handle and then to the primary one: two frequency-set calls when the
    first succeeds, and a non-zero status of either throws at once. *)
Theorem set_frequency_dual (w : world H) (value : Double.double) (v : Z) :
  dual_channel (this w) = true ->
  Double.to_unsigned 64 value = Some v ->
  let s := this w in
  let run := set_frequency H sdk value w in
  Double.trunc value = Some v /\
  secondary_then_primary run
    (Set_frequency_func (card s) (hdl2 s) v)
    (Set_frequency_func (card s) (hdl s) v) "Failure: set frequency" /\
  (forall e, In e (log_of run) -> event_status e <> 0 ->
             result_of run = Throws "Failure: set frequency") /\
  (result_of run = Throws "Failure: set frequency" \/
   result_of run = Returns 0).
Proof.
  intros Hd Hv. cbv zeta. split.
  - unfold Double.to_unsigned in Hv.
    destruct (Double.trunc value) as [t |]; [| discriminate].
    destruct ((0 <=? t) && (t <? 2 ^ 64)); congruence.
  - unfold_method. rewrite Hd, Hv. cbn [this hw fst snd].
    next_call. split_status; [next_call; split_status; subst |];
      (split; [| split];
       [ do 2 eexists; split; [reflexivity |]; split; intros
       | intros e Hin; repeat destruct Hin as [<- | Hin]; cbn; intros
       | ..]);
      try contradiction; try congruence; try (split; reflexivity);
      try reflexivity; (now right) || (now left).
Qed.

(** C7.  [read_accelerometer] asks the hardware whether it has an
    accelerometer.  If not, it prints the information line and returns,
    with no other call and the adapter untouched; if so, it powers the
    accelerometer on, samples it once and powers it off, and makes no
    other vendor call. *)
Theorem read_accelerometer_gated (w : world H) :
  let s := this w in
  let run := read_accelerometer H sdk w in
  let query := Skiq_is_accel_supported (card s) in
  let answer := sdk _ query (hw w) in
  if snd (fst answer) then
    exists st_on sample st_off rest,
      log_of run =
        [Call query (fst answer);
         Call (Skiq_write_accel_state (card s) 1) st_on;
         Call (Skiq_read_accel (card s)) sample;
         Call (Skiq_write_accel_state (card s) 0) st_off] ++ rest /\
      invoked rest = []
  else
    run =
      (Returns tt, {| this := s; hw := snd answer |},
       [Call query (fst answer);
        Printf "Info: accelerometer not supported with product\r\n" []]).
Proof.
  cbv zeta. unfold_method.
  destruct (sdk _ (Skiq_is_accel_supported (card (this w))) (hw w))
    as [[st supported] h] eqn:E.
  cbn [this hw fst snd]. destruct supported; cbn [negb this hw fst snd].
  - next_call. next_call. next_call. destruct reply0 as [status xyz].
    cbn [fst snd]. split_status; do 4 eexists; split; reflexivity.
  - reflexivity.
Qed.

(** C10.  On hardware that has an accelerometer, [read_accelerometer]
    issues the power-off command after the sample read whatever the read
    reports: when the read fails, the power-off comes before the error
    line and the throw, and no vendor call follows it. *)
Theorem read_accelerometer_powers_off (w : world H) :
  let s := this w in
  let run := read_accelerometer H sdk w in
  snd (fst (sdk _ (Skiq_is_accel_supported (card s)) (hw w))) = true ->
  exists before sample st_off after,
    log_of run =
      before ++ Call (Skiq_read_accel (card s)) sample
             :: Call (Skiq_write_accel_state (card s) 0) st_off :: after /\
    (fst sample <> 0 ->
       after = [Printf "Error: Unable to read the accelerometer\r\n" []] /\
       result_of run = Throws "Failure: skiq_write_accel_state") /\
    (fst sample = 0 -> after = [] /\ result_of run = Returns tt).
Proof.
  cbv zeta. unfold_method.
  destruct (sdk _ (Skiq_is_accel_supported (card (this w))) (hw w))
    as [[st supported] h] eqn:E.
  cbn [this hw fst snd]. intros ->. cbn [negb this hw fst snd].
  next_call. next_call. next_call. destruct reply0 as [status xyz].
  cbn [fst snd].
  eexists [_; _], (status, xyz), _.
  split_status; eexists; (split; [reflexivity |]);
    split; intros; try congruence; split; reflexivity.
Qed.

Lemma eqv_symbol (name : string) (key : Pmt.pmt_t) :
  Pmt.eqv (Pmt.symbol name) key = true <-> key = Pmt.symbol name.
Proof.
  destruct key; cbn [Pmt.eqv]; split; try discriminate.
  - intros E. apply String.eqb_eq in E. congruence.
  - intros [= ->]. apply String.eqb_refl.
Qed.

Lemma get_pmt_cons_from_timestamp_entry (timestamp : Z) :
  telemetry_entry (get_pmt_cons_from_timestamp timestamp).
Proof.
  unfold get_pmt_cons_from_timestamp, telemetry_entry.
  do 2 eexists. split; [reflexivity |].
  apply fractional_in_unit_interval.
  apply Z.mod_pos_bound. reflexivity.
Qed.

(** C5.  When the timestamp read succeeds, [get_telemetry_pmt] returns a
    dictionary whose keys are exactly the two telemetry keys, and each of
    them maps to a pair of whole seconds and a fraction in [[0, 1)];
    otherwise it throws and returns nothing. *)
Theorem telemetry_two_entries (w : world H) :
  let s := this w in
  let run :=
    get_telemetry_pmt H sdk CMD_CURRENT_USRP_TIME CMD_CURRENT_HOST_TIME w in
  let usrp_time := Pmt.symbol CMD_CURRENT_USRP_TIME in
  let host_time := Pmt.symbol CMD_CURRENT_HOST_TIME in
  let status :=
    fst (fst (sdk _ (Skiq_read_curr_sys_timestamp (card s)) (hw w))) in
  if status =? 0 then
    exists d,
      result_of run = Returns d /\
      (forall key,
         Pmt.dict_has_key d key = true <->
         key = usrp_time \/ key = host_time) /\
      (forall key,
         key = usrp_time \/ key = host_time ->
         exists v, Pmt.dict_ref d key = Some v /\ telemetry_entry v)
  else result_of run = Throws "Failure: skiq_read_curr_sys_timestamp".
Proof.
  cbv zeta. unfold get_telemetry_pmt, get_sidekiq_system_timestamp.
  unfold_method.
  destruct (sdk _ (Skiq_read_curr_sys_timestamp (card (this w))) (hw w))
    as [[status timestamp] h] eqn:E.
  cbn [this hw fst snd]. destruct (Z.eqb_spec status 0) as [-> | Hst];
    cbn [this hw fst snd negb]; [| reflexivity].
  next_call.
  pose proof (get_pmt_cons_from_timestamp_entry
                (Int.u64 (timestamp *
                          sidekiq_system_time_interval_nanos (this w))))
    as Husrp.
  pose proof (get_pmt_cons_from_timestamp_entry reply) as Hhost.
  set (v1 := get_pmt_cons_from_timestamp _) in *.
  set (v2 := get_pmt_cons_from_timestamp reply) in *.
  eexists. split; [reflexivity |].
  unfold Pmt.dict_add, Pmt.make_dict, Pmt.acons.
  cbn [Pmt.is_null Pmt.dict_has_key Pmt.dict_delete].
  change (Pmt.eqv (Pmt.symbol CMD_CURRENT_USRP_TIME)
            (Pmt.symbol CMD_CURRENT_HOST_TIME))
    with (String.eqb CMD_CURRENT_USRP_TIME CMD_CURRENT_HOST_TIME).
  destruct (String.eqb_spec CMD_CURRENT_USRP_TIME CMD_CURRENT_HOST_TIME)
    as [Heq | Hneq]; cbn [orb Pmt.dict_has_key Pmt.dict_ref].
  - rewrite Heq. split.
    + intros key. rewrite Bool.orb_false_r, eqv_symbol. tauto.
    + intros key [-> | ->]; cbn [Pmt.eqv]; rewrite String.eqb_refl;
        eauto.
  - split.
    + intros key.
      rewrite Bool.orb_false_r, Bool.orb_true_iff, !eqv_symbol. tauto.
    + intros key [-> | ->]; cbn [Pmt.eqv].
      * apply String.eqb_neq in Hneq. rewrite String.eqb_sym, Hneq.
        rewrite String.eqb_refl. eauto.
      * rewrite String.eqb_refl. eauto.
Qed.

(** C8.  The pulse-per-second selector is a placeholder: [set_sync_type]
    returns at once, with no external call, no output and the adapter
    and hardware as they were. *)
Theorem set_sync_type_pps_noop (w : world H) :
  set_sync_type H sdk SYNC_GPS_PPS w = (Returns tt, w, []).
Proof. reflexivity. Qed.

(** C9.  A selector other than the three known ones is ignored:
    [set_sync_type] returns at once, with no external call, no output and
    the adapter and hardware as they were. *)
Theorem set_sync_type_unknown_noop (w : world H) (type : Z) :
  type <> SYNC_ZERO -> type <> SYNC_GPS_PPS -> type <> SYNC_SYSTEM_TIME ->
  set_sync_type H sdk type w = (Returns tt, w, []).
Proof.
  intros H1 H2 H3. unfold set_sync_type.
  destruct (Z.eqb_spec type SYNC_ZERO); [contradiction |].
  destruct (Z.eqb_spec type SYNC_GPS_PPS); [contradiction |].
  destruct (Z.eqb_spec type SYNC_SYSTEM_TIME); [contradiction |].
  reflexivity.
Qed.

(** A non-negative double whose floor fits 32 bits converts to that
    floor. *)
Lemma to_unsigned_floor (d : Double.double) (v : Z) :
  Double.nonneg d = true -> Double.floor d = Some v -> v < 2 ^ 32 ->
  Double.to_unsigned 32 d = Some v.
Proof.
  destruct d as [sg | sg | | sg m e];
    cbv beta iota delta [Double.nonneg Double.leb SFleb SFcompare
                         Double.to_unsigned Double.floor Double.trunc
                         Double.signed];
    try discriminate.
  - intros _ [= <-] _. reflexivity.
  - destruct sg; [discriminate |]. intros _ Hv Hlt.
    destruct (Z.leb_spec 0 e) as [He | He];
      apply (f_equal (fun o => match o with Some x => x | None => 0 end))
        in Hv; cbv beta iota in Hv; subst v.
    + assert (0 <= Z.pos m * 2 ^ e) by (apply Z.mul_nonneg_nonneg; lia).
      remember (Z.pos m * 2 ^ e) as x.
      destruct (Z.leb_spec 0 x); [| lia].
      destruct (Z.ltb_spec x (2 ^ 32)); [reflexivity | lia].
    + assert (Hp : 0 < 2 ^ (- e)) by (apply Z.pow_pos_nonneg; lia).
      rewrite Z.quot_div_nonneg by lia.
      assert (0 <= Z.pos m / 2 ^ (- e)) by (apply Z.div_pos; lia).
      remember (Z.pos m / 2 ^ (- e)) as x.
      destruct (Z.leb_spec 0 x); [| lia].
      destruct (Z.ltb_spec x (2 ^ 32)); [reflexivity | lia].
Qed.

(** C1, amended.  For non-negative [r] and [b] whose floors fit an unsigned
    32-bit integer, [set_samplerate_bandwidth(r, b)] first writes
    [(floor r, floor b)] to the primary handle.  If that call fails the
    method throws with the adapter as it was; if it succeeds the cache
    holds [(floor r, floor b)] from then on, also when a second channel is
    present and its call fails and the method throws. *)
Theorem set_samplerate_bandwidth_cache (w : world H)
    (r b : Double.double) (rate bw : Z) :
  Double.nonneg r = true -> Double.floor r = Some rate -> rate < 2 ^ 32 ->
  Double.nonneg b = true -> Double.floor b = Some bw -> bw < 2 ^ 32 ->
  let s := this w in
  let run := set_samplerate_bandwidth H sdk r b w in
  let primary := Set_sample_rate_func (card s) (hdl s) rate bw in
  let secondary := Set_sample_rate_func (card s) (hdl2 s) rate bw in
  exists st1 rest,
    log_of run = Call primary st1 :: rest /\
    (st1 <> 0 ->
       this (final run) = s /\ invoked rest = [] /\
       result_of run = Throws "Failure: set samplerate") /\
    (st1 = 0 ->
       sample_rate (this (final run)) = rate /\
       bandwidth (this (final run)) = bw /\
       if dual_channel s then
         exists st2 rest',
           rest = Call secondary st2 :: rest' /\ invoked rest' = [] /\
           (st2 <> 0 -> result_of run = Throws "Failure: set samplerate") /\
           (st2 = 0 -> result_of run = Returns 0)
       else rest = [] /\ result_of run = Returns 0).
Proof.
  intros Hr Fr Lr Hb Fb Lb. cbv zeta. unfold_method.
  rewrite (to_unsigned_floor r rate Hr Fr Lr).
  rewrite (to_unsigned_floor b bw Hb Fb Lb).
  cbn [this hw fst snd]. next_call. exists reply. split_status.
  - destruct (dual_channel (this w)); cbn [this hw fst snd].
    + next_call.
      split_status; eexists; (split; [reflexivity |]);
        (split; [congruence |]); intros _; repeat (split; [reflexivity |]);
        do 2 eexists; (split; [reflexivity |]);
        (split; [reflexivity |]); split; congruence.
    + eexists; (split; [reflexivity |]); (split; [congruence |]);
        intros _; repeat split; subst; reflexivity.
  - eexists; (split; [reflexivity |]); split; [| congruence].
    intros _. destruct w; repeat split; reflexivity.
Qed.

(** C6.  With the host-clock selector, [set_sync_type] reads the host
    time in nanoseconds, divides it by the cached nanoseconds-per-tick
    interval and writes the quotient as the hardware timestamp, with no
    other vendor call; and the interval the constructor caches is
    [10^9] integer-divided by the timestamp frequency it queried. *)
Theorem host_clock_sync :
  (forall w : world H,
     sidekiq_system_time_interval_nanos (this w) <> 0 ->
     let s := this w in
     let interval := sidekiq_system_time_interval_nanos s in
     let now := fst (sdk _ System_clock_now (hw w)) in
     let run := set_sync_type H sdk SYNC_SYSTEM_TIME w in
     (exists st rest,
        log_of run =
          [Call System_clock_now now;
           Call (Skiq_update_timestamps (card s) (Int.u64 now / interval))
                st] ++ rest /\
        invoked rest = []) /\
     (0 <= now < 2 ^ 63 -> Int.u64 now / interval = now / interval) /\
     this (final run) = s) /\
  (forall (w : world H) (input_card_number sync_type port1 port2 : Z)
          (frequency : Z) (h1 h2 : H),
     sdk _ (Skiq_init (Int.u8 input_card_number) NUM_CARDS) (hw w)
       = (0, h1) ->
     sdk _ (Skiq_read_sys_timestamp_freq (Int.u8 input_card_number)) h1
       = ((0, frequency), h2) ->
     frequency <> 0 ->
     let built :=
       final (construct H sdk input_card_number sync_type port1 port2 w) in
     sidekiq_system_time_interval_nanos (this built)
       = NANOSECONDS_IN_SECOND / frequency).
Proof.
  split.
  - intros w Hi. cbv zeta. unfold_method. cbn.
    destruct (sdk Z System_clock_now (hw w)) as [now h] eqn:E.
    cbn [this hw fst snd].
    destruct (Z.eqb_spec (sidekiq_system_time_interval_nanos (this w)) 0);
      [contradiction |].
    cbn [this hw fst snd]. next_call. split; [| split].
    + split_status; do 2 eexists; split; reflexivity.
    + intros Hn. unfold Int.u64, Int.wrap_unsigned.
      rewrite Z.mod_small by lia. reflexivity.
    + split_status; reflexivity.
  - intros w c t p1 p2 f h1 h2 E1 E2 Hf. cbv zeta.
    unfold construct, get_sys_timestamp_frequency. unfold_method.
    cbn [with_ports card]. rewrite E1.
    cbn [this hw fst snd negb Z.eqb with_ports card].
    rewrite E2. cbn [this hw fst snd negb Z.eqb].
    destruct (Z.eqb_spec f 0); [contradiction |].
    cbn [this hw fst snd]. next_call.
    destruct (t =? SYNC_ZERO).
    { next_call. split_status; reflexivity. }
    destruct (t =? SYNC_GPS_PPS); [reflexivity |].
    destruct (t =? SYNC_SYSTEM_TIME); [| reflexivity].
    next_call. cbn [with_params with_interval_nanos
                    sidekiq_system_time_interval_nanos].
    destruct (NANOSECONDS_IN_SECOND / f =? 0); [reflexivity |].
    cbn [this hw fst snd]. next_call. split_status; reflexivity.
Qed.

(** The tap loop prints and makes no call. *)
Lemma print_taps_prints (coeffs : list Z) (todo : nat) :
  forall (count : Z) (w : world H) e,
    In e (log_of (print_taps H coeffs count todo w)) ->
    event_checked e = false.
Proof.
  induction todo as [| todo IH]; intros count w e; cbn [print_taps].
  - intros [].
  - destruct (nth_error coeffs (Z.to_nat count)); [| intros []].
    destruct (count <? 128); [| intros []].
    unfold bind, printf, log_of. cbn [fst snd].
    specialize (IH (count + 1) w e). unfold log_of in IH.
    destruct (print_taps H coeffs (count + 1) todo w) as [[o w'] l].
    cbn [fst snd app] in *. intros [<- | Hin]; [reflexivity | auto].
Qed.

Ltac unfold_all :=
  unfold reports_failures, perform, void, construct, get_telemetry_pmt,
    get_ref_clock_configuration, set_next_pps_timestamp,
    get_last_pps_timestamp, get_sidekiq_system_timestamp,
    get_sys_timestamp_frequency, read_rfic_register, write_rfic_register,
    read_temperature, get_sample_rate, get_frequency, get_timestamp,
    set_filter_parameters, get_filter_parameters;
  unfold_method.

Ltac simp :=
  cbn [this hw fst snd negb app card hdl hdl2 dual_channel
       sidekiq_system_time_interval_nanos with_ports
       with_timestamp_frequency with_interval_nanos with_params
       with_rate_bandwidth].

(** Run the method symbolically: name each reply, split each test. *)
Ltac exec :=
  repeat (simp;
    match goal with
    | |- context [sdk ?R ?c ?h] =>
        let r := fresh "reply" in
        let h' := fresh "h" in
        destruct (sdk R c h) as [r h'] eqn:?
    | |- context [match ?r with pair _ _ => _ end] => is_var r; destruct r
    | |- context [fst ?r] => is_var r; destruct r
    | |- context [snd ?r] => is_var r; destruct r
    | |- context [negb ?b] => is_var b; destruct b
    | |- context [Z.eqb ?a ?b] => destruct (Z.eqb_spec a b)
    | |- context [if dual_channel ?s then _ else _] =>
        destruct (dual_channel s)
    | |- context [Double.to_unsigned ?n ?d] =>
        destruct (Double.to_unsigned n d)
    end); simp.

(** Close a leaf: every logged event is a call that succeeded, a call
    that is not checked, a print, or the call the throw names. *)
Ltac leaf :=
  let e := fresh "e" in
  let Hin := fresh "Hin" in
  intros e Hin; cbn [In] in Hin;
  repeat destruct Hin as [<- | Hin]; try contradiction;
  cbn [event_checked status_checked event_status status_of fst snd];
  intros; try discriminate; try contradiction; try congruence;
  eexists; split; reflexivity.

Lemma get_filter_parameters_reports (w : world H) :
  reports_failures (get_filter_parameters H sdk w).
Proof.
  unfold_all; exec; try leaf.
  match goal with
  | |- context [print_taps H ?c ?n ?t ?w0] =>
      pose proof (print_taps_prints c t n w0) as Hprints;
      unfold log_of in Hprints;
      destruct (print_taps H c n t w0) as [[o w'] taps]
  end.
  cbn [fst snd] in Hprints. destruct o; cbn [fst snd app].
  all: intros ev Hin; cbn [In] in Hin;
    repeat destruct Hin as [<- | Hin];
    cbn [event_checked status_checked event_status status_of fst snd];
    intros; try discriminate; try congruence.
  all: try (apply in_app_or in Hin; destruct Hin as [Hin | Hin];
            [| cbn [In] in Hin; destruct Hin as [<- | []]; discriminate]).
  all: apply Hprints in Hin; congruence.
Qed.

(** C2, amended.  In every operation other than the latency probe, a call
    whose status the adapter looks at and that reports a non-zero status
    makes the operation throw, and the failure names the call. *)
Theorem checked_failures_are_raised (op : operation) (w : world H) :
  (forall handle, op <> Op_get_set_frequency_call_latency handle) ->
  reports_failures
    (perform H sdk CMD_CURRENT_USRP_TIME CMD_CURRENT_HOST_TIME op w).
Proof.
  intros Hop. destruct op; try (exfalso; eapply Hop; reflexivity);
    try apply get_filter_parameters_reports;
    unfold_all; exec; leaf.
Qed.

(** ** Further properties of the operations *)

Lemma print_taps_only_prints (coeffs : list Z) (todo : nat) :
  forall (count : Z) (w : world H) e,
    In e (log_of (print_taps H coeffs count todo w)) ->
    exists format args, e = Printf format args.
Proof.
  induction todo as [| todo IH]; intros count w e; cbn [print_taps].
  - intros [].
  - destruct (nth_error coeffs (Z.to_nat count)); [| intros []].
    destruct (count <? 128); [| intros []].
    unfold bind, printf, log_of. cbn [fst snd].
    specialize (IH (count + 1) w e). unfold log_of in IH.
    destruct (print_taps H coeffs (count + 1) todo w) as [[o w'] l].
    cbn [fst snd app] in *. intros [<- | Hin]; [eauto | auto].
Qed.

Lemma print_taps_quiet (coeffs : list Z) (todo : nat) :
  forall (count : Z) (w : world H),
    final (print_taps H coeffs count todo w) = w /\
    forall what, result_of (print_taps H coeffs count todo w) <> Throws what.
Proof.
  induction todo as [| todo IH]; intros count w; cbn [print_taps].
  - split; [reflexivity | discriminate].
  - destruct (nth_error coeffs (Z.to_nat count));
      [| split; [reflexivity | discriminate]].
    destruct (count <? 128); [| split; [reflexivity | discriminate]].
    unfold bind, printf, final, result_of. cbn [fst snd].
    specialize (IH (count + 1) w). unfold final, result_of in IH.
    destruct (print_taps H coeffs (count + 1) todo w) as [[o w'] l].
    cbn [fst snd] in *. exact IH.
Qed.

(** Replace the run of the tap loop by what is known of it. *)
Ltac taps :=
  match goal with
  | |- context [print_taps H ?c ?n ?t ?w0] =>
      let Hp := fresh "Hprints" in
      let Hq := fresh "Hquiet" in
      pose proof (print_taps_only_prints c t n w0) as Hp;
      pose proof (print_taps_quiet c t n w0) as Hq;
      unfold log_of, final, result_of in Hp, Hq;
      let o := fresh "o" in
      let w' := fresh "w'" in
      let l := fresh "lines" in
      destruct (print_taps H c n t w0) as [[o w'] l];
      cbn [fst snd] in Hp, Hq;
      let Hw := fresh "Hw" in
      let Ht := fresh "Hthrow" in
      destruct Hq as [Hw Ht]; subst w'
  end.

(** Unfold every operation, the latency probe too. *)
Ltac unfold_ops :=
  unfold perform, void, get_set_frequency_call_latency; unfold_all.

(** X1.  Only the constructor and [set_samplerate_bandwidth] assign to
    data members: every other operation leaves the adapter object as it
    was, whether it returns or throws. *)
Theorem adapter_unchanged (op : operation) (w : world H) :
  assigns_members op = false ->
  this (final (perform H sdk CMD_CURRENT_USRP_TIME CMD_CURRENT_HOST_TIME
                 op w)) = this w.
Proof.
  intros Hop. destruct op; try discriminate Hop;
    unfold_ops; exec; try reflexivity.
  taps. destruct o; reflexivity.
Qed.

(** X2.  Whatever its arguments and whatever the hardware answers,
    [set_samplerate_bandwidth] changes nothing of the adapter but the
    cached sample rate and bandwidth. *)
Theorem set_samplerate_bandwidth_frame (w : world H)
    (r b : Double.double) :
  same_except_cache (this w)
    (this (final (set_samplerate_bandwidth H sdk r b w))).
Proof.
  remember (this w) as before eqn:Hb. unfold same_except_cache.
  unfold_all; exec; subst before; repeat split; reflexivity.
Qed.

(** X3.  An operation that throws has printed an error line last, and the
    text of what it throws starts with ["Failure:"]. *)
Theorem throws_after_error_line (op : operation) (w : world H)
    (what : string) :
  let run :=
    perform H sdk CMD_CURRENT_USRP_TIME CMD_CURRENT_HOST_TIME op w in
  result_of run = Throws what ->
  String.prefix "Failure:" what = true /\
  is_error_line (last_event (log_of run)) = true.
Proof.
  cbv zeta. destruct op; unfold_ops; exec;
    try (intros Hr; try discriminate Hr; injection Hr as <-;
         split; reflexivity).
  taps. destruct o; cbn [fst snd]; intros Hr; try discriminate Hr.
  injection Hr as <-. exfalso. eapply Hthrow. reflexivity.
Qed.

Lemma invoked_app (l1 l2 : list event) :
  invoked (l1 ++ l2) = invoked l1 ++ invoked l2.
Proof.
  induction l1 as [| [R c r | f a] l1 IH]; cbn [app invoked];
    [reflexivity | | assumption].
  destruct (is_vendor c); cbn [app]; congruence.
Qed.

Lemma failed_is_vendor (e : event) :
  event_failed e = true -> event_is_vendor e = true.
Proof.
  unfold event_failed. destruct e as [R c r | f a]; cbn; [| discriminate].
  destruct c; cbn; try discriminate; reflexivity.
Qed.

Lemma stops_at_failure_sound (l : list event) :
  stops_at_failure l = true ->
  forall pre e post,
    l = pre ++ e :: post -> event_failed e = true -> invoked post = [].
Proof.
  induction l as [| x l IH]; intros Hs pre e post Heq Hf.
  - destruct pre; discriminate Heq.
  - cbn [stops_at_failure] in Hs.
    destruct pre as [| y pre]; cbn [app] in Heq;
      injection Heq as Hx Hl; subst x.
    + subst l. rewrite Hf in Hs.
      destruct (invoked post); [reflexivity | discriminate].
    + destruct (event_failed y).
      * subst l.
        destruct (invoked (pre ++ e :: post)) eqn:Ei; [| discriminate].
        rewrite invoked_app in Ei. apply app_eq_nil in Ei as [_ Ei].
        pose proof (failed_is_vendor e Hf) as Hv.
        destruct e as [R c r | f a]; cbn in Hv; [| discriminate].
        cbn [invoked] in Ei. rewrite Hv in Ei. discriminate.
      * eapply IH; eauto.
Qed.

Lemma stops_at_failure_prints (l : list event) :
  (forall e, In e l -> exists format args, e = Printf format args) ->
  stops_at_failure l = true.
Proof.
  induction l as [| x l IH]; intros Hp; [reflexivity |].
  destruct (Hp x (or_introl eq_refl)) as (f & a & ->).
  cbn. apply IH. intros e He. apply Hp. now right.
Qed.

(** Decide the status tests of a log from what the run has established. *)
Ltac settle_status :=
  cbn [stops_at_failure event_failed event_checked status_checked
       event_status status_of andb negb fst snd invoked is_vendor];
  repeat (match goal with
          | Hz : ?a = 0 |- context [?a =? 0] =>
              rewrite (proj2 (Z.eqb_eq a 0) Hz)
          | Hn : ?a <> 0 |- context [?a =? 0] =>
              rewrite (proj2 (Z.eqb_neq a 0) Hn)
          | |- context [?a =? 0] => destruct (a =? 0)
          end;
          cbn [stops_at_failure event_failed event_checked status_checked
               event_status status_of andb negb fst snd invoked is_vendor]).

Lemma perform_stops_at_failure (op : operation) (w : world H) :
  op <> Op_read_accelerometer ->
  stops_at_failure
    (log_of (perform H sdk CMD_CURRENT_USRP_TIME CMD_CURRENT_HOST_TIME
               op w)) = true.
Proof.
  intros Hop. destruct op; try congruence;
    unfold_ops; exec; try (settle_status; reflexivity).
  taps.
  destruct o; cbn [fst snd app]; settle_status;
    apply stops_at_failure_prints;
    intros ev He; try (apply in_app_or in He; destruct He as [He | He]);
    try (apply Hprints; exact He);
    cbn [In] in He; destruct He as [<- | []]; eauto.
Qed.

(** X4.  No operation retries or carries on after a failure: once a call
    whose status is inspected has reported a non-zero status, the
    operation makes no further vendor call.  The one exception is
    [read_accelerometer], which powers the accelerometer off after a
    failed read. *)
Theorem no_call_after_failure (op : operation) (w : world H) :
  op <> Op_read_accelerometer ->
  forall pre e post,
    log_of (perform H sdk CMD_CURRENT_USRP_TIME CMD_CURRENT_HOST_TIME op w)
      = pre ++ e :: post ->
    event_checked e = true -> event_status e <> 0 ->
    invoked post = [].
Proof.
  intros Hop pre e post Heq Hc Hs.
  eapply stops_at_failure_sound;
    [apply perform_stops_at_failure; exact Hop | exact Heq |].
  unfold event_failed. rewrite Hc.
  apply Z.eqb_neq in Hs. rewrite Hs. reflexivity.
Qed.

(** X5.  When a call made through the dispatch table reports a non-zero
    status, the error line the operation prints last carries that status
    and its platform description.  (The latency probe prints nothing.) *)
Theorem dispatch_failure_prints_status (op : operation) (w : world H) :
  (forall handle, op <> Op_get_set_frequency_call_latency handle) ->
  let run :=
    perform H sdk CMD_CURRENT_USRP_TIME CMD_CURRENT_HOST_TIME op w in
  forall e,
    In e (log_of run) -> event_through_dispatch_table e = true ->
    event_status e <> 0 ->
    exists format,
      last_event (log_of run) =
        Printf format
          [Arg_int (event_status e); Arg_strerror_abs (event_status e)].
Proof.
  intros Hop. cbv zeta.
  destruct op; try (exfalso; eapply Hop; reflexivity);
    unfold_ops; exec;
    try (intros ev Hin; cbn [In] in Hin;
         repeat destruct Hin as [<- | Hin]; try contradiction;
         cbn [event_through_dispatch_table through_dispatch_table
              event_status status_of fst snd];
         intros; try discriminate; try contradiction; try congruence;
         eexists; reflexivity).
  taps. destruct o; cbn [fst snd app];
    intros ev Hin; cbn [In] in Hin;
    repeat destruct Hin as [<- | Hin];
    cbn [event_through_dispatch_table through_dispatch_table
         event_status status_of fst snd];
    intros; try discriminate; try congruence;
    try (apply in_app_or in Hin; destruct Hin as [Hin | Hin];
         [| cbn [In] in Hin; destruct Hin as [<- | []]; discriminate]);
    apply Hprints in Hin; destruct Hin as (fmt & fargs & ->); discriminate.
Qed.

(** ** The constructor *)

(** X6.  If the card cannot be initialised the constructor throws at once:
    the handles are assigned, the one call made is [skiq_init], the error
    line carries its status, and neither the timestamp frequency nor the
    parameters are queried and no synchronisation is attempted. *)
Theorem construct_init_failure (w : world H)
    (input_card_number sync_type port1 port2 : Z) :
  let init := Skiq_init (Int.u8 input_card_number) NUM_CARDS in
  let status := fst (sdk _ init (hw w)) in
  status <> 0 ->
  construct H sdk input_card_number sync_type port1 port2 w =
    (Throws "Failure: skiq_init",
     {| this := with_ports (Int.u8 input_card_number) port1 port2 (this w);
        hw := snd (sdk _ init (hw w)) |},
     [Call init status;
      Printf "Error: unable to initialize libsidekiq with status %d\n"
        [Arg_int status]]).
Proof.
  cbv zeta. intros Hst. unfold construct. unfold_method.
  cbn [with_ports card].
  destruct (sdk Z (Skiq_init (Int.u8 input_card_number) NUM_CARDS) (hw w))
    as [status h].
  cbn [this hw fst snd] in *.
  destruct (Z.eqb_spec status 0); [contradiction | reflexivity].
Qed.

Lemma construct_ports (w : world H)
    (input_card_number sync_type port1 port2 : Z) :
  let built :=
    this (final (construct H sdk input_card_number sync_type port1 port2
                   w)) in
  card built = Int.u8 input_card_number /\ hdl built = port1 /\
  hdl2 built = port2 /\ dual_channel built = false /\
  sample_rate built = sample_rate (this w) /\
  bandwidth built = bandwidth (this w).
Proof.
  cbv zeta. remember (this w) as before eqn:Hb.
  unfold construct, get_sys_timestamp_frequency. unfold_method. exec;
    subst before; repeat split; reflexivity.
Qed.

(** X7.  A constructed adapter is a single-channel one on card
    [input_card_number mod 256]: whatever the second handle given, starting
    and stopping the stream on it address the first handle only, and the
    cached rate and bandwidth are not touched by the construction. *)
Theorem constructed_is_single_channel (w : world H)
    (input_card_number sync_type port1 port2 : Z) :
  let built :=
    final (construct H sdk input_card_number sync_type port1 port2 w) in
  let c := input_card_number mod 256 in
  invoked (log_of (start_streaming H sdk built)) =
    [Invoke (Start_streaming_func c port1)] /\
  invoked (log_of (stop_streaming H sdk built)) =
    [Invoke (Stop_streaming_func c port1)] /\
  sample_rate (this built) = sample_rate (this w) /\
  bandwidth (this built) = bandwidth (this w).
Proof.
  cbv zeta.
  destruct (construct_ports w input_card_number sync_type port1 port2)
    as (Hc & Hh & _ & Hd & Hr & Hb).
  cbv zeta in Hc, Hh, Hd, Hr, Hb.
  set (built := final (construct H sdk input_card_number sync_type
                         port1 port2 w)) in *.
  change (input_card_number mod 256) with (Int.u8 input_card_number).
  rewrite <- Hc, <- Hh. repeat split; try assumption;
    unfold_method; rewrite Hd; cbn [this hw fst snd];
    next_call; split_status; reflexivity.
Qed.

(** X8.  Constructed with the zero selector on hardware that initialises
    and reports a non-zero timestamp frequency, the adapter makes exactly
    four vendor calls, in this order: initialise, query the timestamp
    frequency, read the parameters, reset the timestamps.  It reads no host
    clock and writes no timestamp. *)
Theorem construct_zero_sync (w : world H)
    (input_card_number port1 port2 frequency : Z) (h1 h2 : H) :
  let c := Int.u8 input_card_number in
  sdk _ (Skiq_init c NUM_CARDS) (hw w) = (0, h1) ->
  sdk _ (Skiq_read_sys_timestamp_freq c) h1 = ((0, frequency), h2) ->
  frequency <> 0 ->
  let run := construct H sdk input_card_number SYNC_ZERO port1 port2 w in
  invoked (log_of run) =
    [Invoke (Skiq_init c NUM_CARDS);
     Invoke (Skiq_read_sys_timestamp_freq c);
     Invoke (Skiq_read_parameters c);
     Invoke (Skiq_reset_timestamps c)] /\
  (forall e, In e (log_of run) ->
             event_is_vendor e = true \/ is_error_line e = true) /\
  timestamp_frequency (this (final run)) = frequency.
Proof.
  cbv zeta. intros E1 E2 Hf.
  unfold construct, get_sys_timestamp_frequency. unfold_method.
  cbn [with_ports card]. rewrite E1.
  cbn [this hw fst snd negb Z.eqb with_ports card].
  rewrite E2. cbn [this hw fst snd negb Z.eqb].
  destruct (Z.eqb_spec frequency 0); [contradiction |].
  cbn [this hw fst snd]. next_call. cbn [Z.eqb SYNC_ZERO Pos.eqb].
  next_call. split_status; (split; [reflexivity | split; [| reflexivity]]);
    intros ev Hin; cbn [In] in Hin;
    repeat destruct Hin as [<- | Hin]; try contradiction;
    (now left) || (now right).
Qed.

(** X9.  The constructor divides [10^9] by the queried timestamp
    frequency, and the host-clock synchronisation divides by the result.
    So a reported frequency of zero makes the construction undefined, and
    a reported frequency above [10^9] caches a zero interval and makes the
    host-clock synchronisation undefined: in both cases the constructor
    neither returns nor throws, and no timestamp is written. *)
Theorem construct_division_by_zero (w : world H)
    (input_card_number sync_type port1 port2 frequency : Z) (h1 h2 : H) :
  let c := Int.u8 input_card_number in
  sdk _ (Skiq_init c NUM_CARDS) (hw w) = (0, h1) ->
  sdk _ (Skiq_read_sys_timestamp_freq c) h1 = ((0, frequency), h2) ->
  frequency = 0 \/
  (NANOSECONDS_IN_SECOND < frequency /\ sync_type = SYNC_SYSTEM_TIME) ->
  let run :=
    construct H sdk input_card_number sync_type port1 port2 w in
  result_of run = Undefined /\
  forall e, In e (log_of run) ->
            forall ts st, e <> Call (Skiq_update_timestamps c ts) st.
Proof.
  cbv zeta. intros E1 E2 Hf.
  unfold construct, get_sys_timestamp_frequency. unfold_method.
  cbn [with_ports card]. rewrite E1.
  cbn [this hw fst snd negb Z.eqb with_ports card].
  rewrite E2. cbn [this hw fst snd negb Z.eqb].
  destruct Hf as [-> | [Hbig ->]].
  - cbn [Z.eqb this hw fst snd]. split; [reflexivity |].
    intros ev Hin; cbn [In app] in Hin;
      repeat destruct Hin as [<- | Hin]; try contradiction; discriminate.
  - destruct (Z.eqb_spec frequency 0);
      [unfold NANOSECONDS_IN_SECOND in Hbig; lia |].
    cbn [this hw fst snd]. next_call.
    cbn [Z.eqb SYNC_ZERO SYNC_GPS_PPS SYNC_SYSTEM_TIME Pos.eqb].
    next_call.
    cbn [with_params with_interval_nanos sidekiq_system_time_interval_nanos].
    rewrite Z.div_small
      by (unfold NANOSECONDS_IN_SECOND in *; lia).
    cbn [Z.eqb this hw fst snd]. split; [reflexivity |].
    intros ev Hin; cbn [In app] in Hin;
      repeat destruct Hin as [<- | Hin]; try contradiction; discriminate.
Qed.

(** X10.  The full-scale factor [(pow(2.0f, bits) / 2.0) - 1] is the
    integer [2^(bits-1) - 1] exactly for a resolution of 1 to 54 bits; from
    55 bits up to 255 (the largest 8-bit resolution) the subtraction of one
    is lost to rounding and the factor is [2^(bits-1)]. *)
Theorem full_scale_value (bits : Z) :
  (1 <= bits <= 54 ->
   Double.trunc (full_scale bits) = Some (2 ^ (bits - 1) - 1)) /\
  (55 <= bits <= 255 ->
   Double.trunc (full_scale bits) = Some (2 ^ (bits - 1))).
Proof.
  pose (agrees := fun (value : Z -> Z) (n : nat) =>
          match Double.trunc (full_scale (Z.of_nat n)) with
          | Some v => v =? value (Z.of_nat n)
          | None => false
          end).
  assert (Hagrees : forall value n,
            agrees value n = true ->
            Double.trunc (full_scale (Z.of_nat n))
              = Some (value (Z.of_nat n))).
  { unfold agrees. intros value n.
    destruct (Double.trunc (full_scale (Z.of_nat n))); [| discriminate].
    intros E. apply Z.eqb_eq in E. congruence. }
  assert (Hlow : forallb (agrees (fun b => 2 ^ (b - 1) - 1)) (seq 1 54) = true)
    by (vm_compute; reflexivity).
  assert (Hhigh : forallb (agrees (fun b => 2 ^ (b - 1))) (seq 55 201) = true)
    by (vm_compute; reflexivity).
  rewrite forallb_forall in Hlow, Hhigh. split; intros Hb.
  - rewrite <- (Z2Nat.id bits) by lia.
    apply (Hagrees (fun b => 2 ^ (b - 1) - 1)), Hlow, in_seq. lia.
  - rewrite <- (Z2Nat.id bits) by lia.
    apply (Hagrees (fun b => 2 ^ (b - 1))), Hhigh, in_seq. lia.
Qed.

(** ** Values passed and returned *)

(** X11.  The status that [start_streaming], [stop_streaming],
    [set_frequency] and [set_samplerate_bandwidth] return is always zero:
    any other status makes them throw. *)
Theorem returned_status_is_zero (w : world H)
    (value r b : Double.double) (v : Z) :
  (result_of (start_streaming H sdk w) = Returns v -> v = 0) /\
  (result_of (stop_streaming H sdk w) = Returns v -> v = 0) /\
  (result_of (set_frequency H sdk value w) = Returns v -> v = 0) /\
  (result_of (set_samplerate_bandwidth H sdk r b w) = Returns v -> v = 0).
Proof.
  repeat split; unfold_method; exec; intros Hr;
    try discriminate Hr; injection Hr as <-; assumption.
Qed.

(** X12.  With one channel, [set_frequency] makes one call, on the primary
    handle, with the value truncated to an unsigned 64-bit integer; it
    returns zero if the call succeeds and throws otherwise, and the
    secondary handle is never used. *)
Theorem set_frequency_single (w : world H) (value : Double.double) (v : Z) :
  dual_channel (this w) = false ->
  Double.to_unsigned 64 value = Some v ->
  let s := this w in
  let run := set_frequency H sdk value w in
  exists st rest,
    log_of run = Call (Set_frequency_func (card s) (hdl s) v) st :: rest /\
    invoked rest = [] /\
    (st = 0 -> result_of run = Returns 0) /\
    (st <> 0 -> result_of run = Throws "Failure: set frequency").
Proof.
  intros Hd Hv. cbv zeta. unfold_method. rewrite Hd, Hv.
  cbn [this hw fst snd]. next_call. exists reply.
  split_status; eexists; (split; [reflexivity |]);
    (split; [reflexivity |]); split; intros; congruence.
Qed.

Lemma trunc_of_Z (n : Z) :
  0 <= n < 2 ^ 53 -> Double.trunc (Double.of_Z n) = Some n.
Proof.
  intros Hn. destruct n as [| p | p]; [reflexivity | | lia].
  assert (Hk : 0 <= Zdigits2 (Z.pos p) <= 53)
    by (apply Zdigits2_upper; lia).
  cbn [Zdigits2] in Hk.
  destruct (Z.eq_dec (Z.pos (digits2_pos p)) 53) as [E | E].
  - unfold Double.of_Z, binary_normalize, binary_round, shl_align.
    rewrite E.
    change (fexp Double.prec Double.emax (53 + 0) - 0) with 0.
    cbv beta iota.
    change (fexp Double.prec Double.emax (53 + 0)) with 0.
    unfold Double.prec, Double.emax.
    rewrite (binary_round_aux_canonical p 0 E) by lia.
    cbn [Double.trunc Double.signed Z.leb Z.compare].
    rewrite Z.pow_0_r, Z.mul_1_r. reflexivity.
  - destruct (of_Z_pos p ltac:(lia)) as (m & -> & Hm & _).
    cbn [Double.trunc Double.signed].
    destruct (Z.leb_spec 0 (Z.pos (digits2_pos p) - 53)); [lia |].
    rewrite Hm.
    replace (- (Z.pos (digits2_pos p) - 53))
      with (53 - Z.pos (digits2_pos p)) by lia.
    rewrite Z.quot_mul; [reflexivity |].
    apply Z.pow_nonzero; lia.
Qed.

Lemma to_unsigned_of_Z (bits n : Z) :
  0 <= bits <= 64 -> 0 <= n < 2 ^ bits -> n < 2 ^ 53 ->
  Double.to_unsigned bits (Double.of_Z n) = Some n.
Proof.
  intros Hb Hn H53. unfold Double.to_unsigned.
  rewrite trunc_of_Z by lia.
  destruct (Z.leb_spec 0 n); [| lia].
  destruct (Z.ltb_spec n (2 ^ bits)); [reflexivity | lia].
Qed.

(** X13.  An integral request goes through the [double] unchanged: for
    integers [r] and [b] below [2^32] the first call of
    [set_samplerate_bandwidth] writes exactly [(r, b)] to the primary
    handle, and for an integer [f] below [2^53] the first call of
    [set_frequency] writes exactly [f]. *)
Theorem integral_requests_unchanged (w : world H) (r b f : Z) :
  0 <= r < 2 ^ 32 -> 0 <= b < 2 ^ 32 -> 0 <= f < 2 ^ 53 ->
  let s := this w in
  (exists st rest,
     log_of (set_samplerate_bandwidth H sdk
               (Double.of_Z r) (Double.of_Z b) w) =
       Call (Set_sample_rate_func (card s) (hdl s) r b) st :: rest) /\
  (exists st rest,
     log_of (set_frequency H sdk (Double.of_Z f) w) =
       Call (Set_frequency_func (card s)
               (if dual_channel s then hdl2 s else hdl s) f) st :: rest).
Proof.
  intros Hr Hb Hf. cbv zeta.
  assert (H32 : 2 ^ 32 < 2 ^ 53) by reflexivity.
  assert (H64 : 2 ^ 53 < 2 ^ 64) by reflexivity.
  split; unfold_method.
  - rewrite !to_unsigned_of_Z by lia. cbn [this hw fst snd].
    next_call. split_status; try destruct (dual_channel (this w));
      cbn [this hw fst snd]; try next_call; try split_status;
      do 2 eexists; reflexivity.
  - destruct (dual_channel (this w)); rewrite !to_unsigned_of_Z by lia;
      cbn [this hw fst snd]; next_call;
      split_status; try next_call; try split_status;
      do 2 eexists; reflexivity.
Qed.

(** X14.  The conversion truncates toward zero, it does not take the
    floor: a negative rate of magnitude below one, whose floor is [-1], is
    written to the hardware as the rate [0]. *)
Theorem negative_fraction_is_zero (w : world H)
    (m : positive) (e : Z) (b : Double.double) (bw : Z) :
  e < 0 -> Z.pos m < 2 ^ (- e) ->
  Double.to_unsigned 32 b = Some bw ->
  let r := S754_finite true m e in
  let s := this w in
  Double.floor r = Some (-1) /\
  exists st rest,
    log_of (set_samplerate_bandwidth H sdk r b w) =
      Call (Set_sample_rate_func (card s) (hdl s) 0 bw) st :: rest.
Proof.
  intros He Hm Hb. cbv zeta.
  assert (Hp : 0 < 2 ^ (- e)) by (apply Z.pow_pos_nonneg; lia).
  split.
  - cbn [Double.floor Double.signed].
    destruct (Z.leb_spec 0 e); [lia |]. f_equal.
    symmetry. apply Z.div_unique with (2 ^ (- e) - Z.pos m); lia.
  - assert (Hr : Double.to_unsigned 32 (S754_finite true m e) = Some 0).
    { unfold Double.to_unsigned. cbn [Double.trunc Double.signed].
      destruct (Z.leb_spec 0 e); [lia |].
      change (Z.neg m) with (- Z.pos m).
      rewrite Z.quot_opp_l by lia.
      rewrite Z.quot_small by lia. reflexivity. }
    unfold_method. rewrite Hr, Hb. cbn [this hw fst snd].
    next_call. split_status; try destruct (dual_channel (this w));
      cbn [this hw fst snd]; try next_call; try split_status;
      do 2 eexists; reflexivity.
Qed.

(** X15.  The latency probe makes one vendor call, a frequency-set at
    2400000000 on the handle given, between two reads of the host clock.
    It never throws and never fails to return, whatever status the call
    reports; it returns the difference of the two readings as a signed
    64-bit value, which is the elapsed time when the clock did not go
    backwards; and it leaves the adapter as it was. *)
Theorem latency_probe_always_returns (w : world H) (handle : Z) :
  let run := get_set_frequency_call_latency H sdk handle w in
  exists start st stop,
    log_of run =
      [Call System_clock_now start;
       Call (Set_frequency_func (card (this w)) handle 2400000000) st;
       Call System_clock_now stop] /\
    result_of run = Returns (Int.s64 (stop - start)) /\
    (0 <= stop - start < 2 ^ 63 ->
     result_of run = Returns (stop - start)) /\
    this (final run) = this w.
Proof.
  cbv zeta. unfold get_set_frequency_call_latency. unfold_method.
  next_call. next_call. next_call.
  exists reply, reply0, reply1. repeat split.
  intros Hd. f_equal. unfold Int.s64, Int.wrap_signed.
  rewrite Z.mod_small by lia.
  change (2 ^ (64 - 1)) with (2 ^ 63).
  destruct (Z.ltb_spec (reply1 - reply) (2 ^ 63)); [reflexivity | lia].
Qed.

(** ** The filter report *)

Lemma print_taps_run (coeffs : list Z) (w : world H) :
  List.length coeffs = 128%nat ->
  forall (todo count : nat),
    (count <= 128)%nat ->
    print_taps H coeffs (Z.of_nat count) todo w =
      if (count + todo <=? 128)%nat then
        (Returns tt, w, map (tap_line coeffs) (seq count todo))
      else
        (Undefined, w, map (tap_line coeffs) (seq count (128 - count))).
Proof.
  intros Hlen. induction todo as [| todo IH]; intros count Hc.
  - cbn [print_taps]. replace (count + 0 <=? 128)%nat with true
      by (symmetry; apply Nat.leb_le; lia). reflexivity.
  - cbn [print_taps]. rewrite Nat2Z.id.
    destruct (Nat.eq_dec count 128) as [-> | Hne].
    + rewrite (proj2 (nth_error_None coeffs 128)) by lia.
      replace (128 + S todo <=? 128)%nat with false
        by (symmetry; apply Nat.leb_gt; lia).
      reflexivity.
    + rewrite (nth_error_nth' coeffs 0) by lia.
      destruct (Z.ltb_spec (Z.of_nat count) 128); [| lia].
      unfold bind, printf.
      replace (Z.of_nat count + 1) with (Z.of_nat (S count)) by lia.
      rewrite IH by lia.
      replace (S count + todo <=? 128)%nat
        with (count + S todo <=? 128)%nat by (f_equal; lia).
      destruct (count + S todo <=? 128)%nat; cbn [app seq map].
      * reflexivity.
      * replace (128 - count)%nat with (S (128 - S count)) by lia.
        reflexivity.
Qed.

(** X16.  When both queries succeed and the hardware reports at most 128
    taps, [get_filter_parameters] prints the decimation, the tap count, a
    heading, one line per tap in index order with the coefficient at that
    index, and a blank line, and returns. *)
Theorem get_filter_parameters_lists_taps (w : world H)
    (num_taps decimation : Z) (coeffs : list Z) (h1 h2 : H) :
  let c := card (this w) in
  sdk _ (Get_rfic_fir_config_func c) (hw w)
    = ((0, (num_taps, decimation)), h1) ->
  sdk _ (Get_rfic_fir_coeffs_func c) h1 = ((0, coeffs), h2) ->
  List.length coeffs = 128%nat -> 0 <= num_taps <= 128 ->
  get_filter_parameters H sdk w =
    (Returns tt, {| this := this w; hw := h2 |},
     [Call (Get_rfic_fir_config_func c) (0, (num_taps, decimation));
      Call (Get_rfic_fir_coeffs_func c) (0, coeffs);
      Printf "FIR decimation: %d\n" [Arg_int decimation];
      Printf "FIR num taps: %d\n" [Arg_int num_taps];
      Printf "FIR taps:\n" []]
     ++ map (tap_line coeffs) (seq 0 (Z.to_nat num_taps))
     ++ [Printf "\n\n" []]).
Proof.
  cbv zeta. intros E1 E2 Hlen Hn.
  unfold get_filter_parameters. unfold_method.
  rewrite E1. cbn [this hw fst snd negb Z.eqb].
  rewrite E2. cbn [this hw fst snd negb Z.eqb].
  rewrite (print_taps_run coeffs _ Hlen (Z.to_nat num_taps) 0) by lia.
  replace (0 + Z.to_nat num_taps <=? 128)%nat with true
    by (symmetry; apply Nat.leb_le; lia).
  reflexivity.
Qed.


(** ** Timestamps in telemetry *)

(** X18.  Both converters split a timestamp, taken as an unsigned 64-bit
    count of nanoseconds, into the same whole seconds and the same
    fraction; the seconds are between 0 and 18446744073, so they are not
    changed by their conversion to a signed integer, seconds and remaining
    nanoseconds add up to the count, and the fraction is in [[0, 1)]. *)
Theorem timestamp_conversion (timestamp : Z) :
  let n := timestamp mod 2 ^ 64 in
  let seconds := n / 1000000000 in
  let fractional :=
    Double.div (Double.of_Z (n mod 1000000000)) (Double.of_Z 1000000000) in
  get_pmt_cons_from_timestamp timestamp =
    Pmt.cons (Pmt.from_long seconds) (Pmt.from_double fractional) /\
  get_pmt_tuple_from_timestamp timestamp =
    Pmt.tuple2 (Pmt.from_uint64 seconds) (Pmt.from_double fractional) /\
  0 <= seconds <= 18446744073 /\
  seconds * 1000000000 + n mod 1000000000 = n /\
  Double.leb (S754_zero false) fractional = true /\
  Double.ltb fractional Double.one = true.
Proof.
  cbv zeta.
  assert (Hn : 0 <= timestamp mod 2 ^ 64 < 2 ^ 64)
    by (apply Z.mod_pos_bound; reflexivity).
  set (n := timestamp mod 2 ^ 64) in *.
  assert (Hs : 0 <= n / 1000000000 <= 18446744073).
  { split; [apply Z.div_pos; lia |].
    apply Z.lt_succ_r. apply Z.div_lt_upper_bound; [lia |].
    change (2 ^ 64) with 18446744073709551616 in Hn. lia. }
  assert (Hwrap : Int.s64 (n / 1000000000) = n / 1000000000).
  { unfold Int.s64, Int.wrap_signed.
    rewrite Z.mod_small
      by (change (2 ^ 64) with 18446744073709551616; lia).
    change (2 ^ (64 - 1)) with 9223372036854775808.
    destruct (Z.ltb_spec (n / 1000000000) 9223372036854775808);
      [reflexivity | lia]. }
  unfold get_pmt_cons_from_timestamp, get_pmt_tuple_from_timestamp,
    Pmt.make_tuple, NANOSECONDS_IN_SECOND, Int.u64, Int.wrap_unsigned.
  fold n. rewrite Hwrap.
  split; [reflexivity |]. split; [reflexivity |]. split; [exact Hs |].
  split.
  - pose proof (Z.div_mod n 1000000000 ltac:(lia)). lia.
  - apply fractional_in_unit_interval. apply Z.mod_pos_bound. reflexivity.
Qed.

(** X19.  With two different key names, a successful [get_telemetry_pmt]
    reads the hardware timestamp and then the host clock, and nothing
    else; the hardware entry is the tick count times the cached interval,
    reduced modulo [2^64], the host entry is the clock reading, both
    converted by [get_pmt_cons_from_timestamp]; and the adapter is left as
    it was. *)
Theorem telemetry_entries (w : world H) (ticks : Z) (h1 : H) :
  CMD_CURRENT_USRP_TIME <> CMD_CURRENT_HOST_TIME ->
  let s := this w in
  sdk _ (Skiq_read_curr_sys_timestamp (card s)) (hw w) = ((0, ticks), h1) ->
  let now := fst (sdk _ System_clock_now h1) in
  let run :=
    get_telemetry_pmt H sdk CMD_CURRENT_USRP_TIME CMD_CURRENT_HOST_TIME w in
  exists d,
    result_of run = Returns d /\
    Pmt.dict_ref d (Pmt.symbol CMD_CURRENT_USRP_TIME) =
      Some (get_pmt_cons_from_timestamp
              ((ticks * sidekiq_system_time_interval_nanos s) mod 2 ^ 64)) /\
    Pmt.dict_ref d (Pmt.symbol CMD_CURRENT_HOST_TIME) =
      Some (get_pmt_cons_from_timestamp now) /\
    log_of run =
      [Call (Skiq_read_curr_sys_timestamp (card s)) (0, ticks);
       Call System_clock_now now] /\
    this (final run) = s.
Proof.
  intros Hneq. cbv zeta. intros E1.
  unfold get_telemetry_pmt, get_sidekiq_system_timestamp. unfold_method.
  rewrite E1. cbn [this hw fst snd negb Z.eqb].
  destruct (sdk Z System_clock_now h1) as [now h2].
  cbn [this hw fst snd].
  eexists. split; [reflexivity |].
  unfold Pmt.dict_add, Pmt.make_dict, Pmt.acons.
  cbn [Pmt.is_null Pmt.dict_has_key Pmt.dict_delete].
  change (Pmt.eqv (Pmt.symbol CMD_CURRENT_USRP_TIME)
            (Pmt.symbol CMD_CURRENT_HOST_TIME))
    with (String.eqb CMD_CURRENT_USRP_TIME CMD_CURRENT_HOST_TIME).
  apply String.eqb_neq in Hneq. rewrite Hneq.
  cbn [orb Pmt.dict_ref Pmt.eqv].
  rewrite String.eqb_sym, Hneq, !String.eqb_refl.
  repeat split; reflexivity.
Qed.

(** ** The cache over a session *)

Lemma last_written_app (l1 l2 : list event) (initial : Z * Z) :
  last_written (l1 ++ l2) initial
    = last_written l2 (last_written l1 initial).
Proof.
  revert initial.
  induction l1 as [| [R c r | f a] l1 IH]; intros initial;
    cbn [app last_written]; [reflexivity | | apply IH].
  destruct (written c r); apply IH.
Qed.

Lemma last_written_prints (l : list event) (initial : Z * Z) :
  (forall e, In e l -> exists format args, e = Printf format args) ->
  last_written l initial = initial.
Proof.
  induction l as [| x l IH]; intros Hp; [reflexivity |].
  destruct (Hp x (or_introl eq_refl)) as (f & a & ->).
  cbn [last_written]. apply IH. intros e He. apply Hp. now right.
Qed.

Ltac settle_written :=
  cbn [last_written written cache sample_rate bandwidth
       with_rate_bandwidth];
  repeat (match goal with
          | Hz : ?a = 0 |- context [?a =? 0] =>
              rewrite (proj2 (Z.eqb_eq a 0) Hz)
          | Hn : ?a <> 0 |- context [?a =? 0] =>
              rewrite (proj2 (Z.eqb_neq a 0) Hn)
          end;
          cbn [last_written written cache sample_rate bandwidth
               with_rate_bandwidth]).

Lemma perform_cache (op : operation) (w : world H) :
  is_construct op = false ->
  let run :=
    perform H sdk CMD_CURRENT_USRP_TIME CMD_CURRENT_HOST_TIME op w in
  cache (this (final run)) = last_written (log_of run) (cache (this w)).
Proof.
  intros Hop. cbv zeta. remember (cache (this w)) as before eqn:Hb.
  destruct op; try discriminate Hop; unfold_ops; exec;
    try (settle_written; subst before; reflexivity).
  taps. destruct o; cbn [fst snd app]; settle_written;
    rewrite ?last_written_app, (last_written_prints lines) by assumption;
    subst before; reflexivity.
Qed.

(** X20.  The cache mirrors the hardware: after any sequence of
    operations on a constructed adapter, also when some of them throw and
    the caller goes on, the cached sample rate and bandwidth are those of
    the last sample-rate write that the hardware accepted during the
    sequence, or the ones cached before it if there was none. *)
Theorem cache_is_last_accepted_write (ops : list operation) :
  forallb (fun op => negb (is_construct op)) ops = true ->
  forall w : world H,
    let run :=
      session sdk CMD_CURRENT_USRP_TIME CMD_CURRENT_HOST_TIME ops w in
    cache (this (fst run)) = last_written (snd run) (cache (this w)).
Proof.
  induction ops as [| op ops IH]; intros Hops w; cbv zeta.
  - reflexivity.
  - cbn [forallb] in Hops. apply andb_prop in Hops as [Hop Hops].
    apply negb_true_iff in Hop.
    pose proof (perform_cache op w Hop) as Hp. cbv zeta in Hp.
    unfold final, log_of in Hp. cbn [session].
    destruct (perform H sdk CMD_CURRENT_USRP_TIME CMD_CURRENT_HOST_TIME
                op w) as [[o w1] l1].
    cbn [fst snd] in Hp.
    specialize (IH Hops w1). cbv zeta in IH.
    destruct (session sdk CMD_CURRENT_USRP_TIME CMD_CURRENT_HOST_TIME
                ops w1) as [w2 l2].
    cbn [fst snd] in IH.
    destruct o; cbn [fst snd]; rewrite ?last_written_app, <- ?Hp;
      assumption || reflexivity.
Qed.

End Properties.






(** * Concrete runs *)

Section Runs.

Import Script.

(** C4 at 2450e6 on a two-channel adapter. *)
Lemma set_frequency_dual_witness :
  let value := Double.of_Z 2450000000 in
  let run := set_frequency unit quiet value paired in
  Double.to_unsigned 64 value = Some 2450000000 /\
  secondary_then_primary run
    (Set_frequency_func 0 1 2450000000)
    (Set_frequency_func 0 0 2450000000) "Failure: set frequency" /\
  result_of run = Returns 0.
Proof.
  pose proof (set_frequency_dual unit quiet paired
                (Double.of_Z 2450000000) 2450000000 eq_refl eq_refl) as P.
  cbv zeta in P. destruct P as (_ & P & _).
  split; [reflexivity |]. split; [exact P | reflexivity].
Defined.

(** C10 on hardware that has an accelerometer. *)
Lemma read_accelerometer_powers_off_witness :
  exists before sample st_off after,
    log_of (read_accelerometer unit quiet single) =
      before ++ Call (Skiq_read_accel 0) sample
             :: Call (Skiq_write_accel_state 0 0) st_off :: after.
Proof.
  destruct (read_accelerometer_powers_off unit quiet single eq_refl)
    as (before & sample & st_off & after & P & _).
  exists before, sample, st_off, after. exact P.
Defined.

(** C9 at the selector 0. *)
Lemma set_sync_type_unknown_noop_witness :
  set_sync_type unit quiet 0 single = (Returns tt, single, []).
Proof.
  apply (set_sync_type_unknown_noop unit quiet single 0); discriminate.
Defined.

(** C1, amended, at 30.72e6 samples per second and 20e6 Hz. *)
Lemma set_samplerate_bandwidth_cache_witness :
  let run :=
    set_samplerate_bandwidth unit quiet
      (Double.of_Z 30720000) (Double.of_Z 20000000) paired in
  sample_rate (this (final run)) = 30720000 /\
  bandwidth (this (final run)) = 20000000.
Proof.
  destruct (set_samplerate_bandwidth_cache unit quiet paired
              (Double.of_Z 30720000) (Double.of_Z 20000000)
              30720000 20000000
              eq_refl eq_refl eq_refl eq_refl eq_refl eq_refl)
    as (st1 & rest & _ & _ & _).
  split; reflexivity.
Defined.

(** C1 as worded fails at a rate of [2^32]: the rate is a double, it is
    not negative, the hardware accepts every request, and no unsigned
    32-bit cache can hold its floor. *)
Lemma set_samplerate_bandwidth_counterexample :
  Double.valid (Double.of_Z 4294967296) = true /\
  ~ caches_floor_on_success quiet single
      (Double.of_Z 4294967296) (S754_zero false).
Proof.
  split; [reflexivity |].
  intros Hc. specialize (Hc eq_refl eq_refl (fun _ _ => eq_refl)).
  cbv zeta in Hc. destruct Hc as [Hr _].
  vm_compute in Hr. discriminate Hr.
Defined.

(** C6 with a 25 ns tick, and the constructor on 40 MHz hardware. *)
Lemma host_clock_sync_witness :
  (exists st rest,
     log_of (set_sync_type unit quiet SYNC_SYSTEM_TIME single) =
       [Call System_clock_now Script.now;
        Call (Skiq_update_timestamps 0 (Script.now / 25)) st] ++ rest) /\
  sidekiq_system_time_interval_nanos
    (this (final (construct unit quiet 0 SYNC_SYSTEM_TIME 0 1 single))) = 25.
Proof.
  destruct (host_clock_sync unit quiet) as [A B]. split.
  - assert (Hi : sidekiq_system_time_interval_nanos (this single) <> 0)
      by discriminate.
    destruct (A single Hi) as ((st & rest & P & _) & _ & _).
    exists st, rest. exact P.
  - assert (Hf : 40000000 <> 0) by discriminate.
    exact (B single 0 SYNC_SYSTEM_TIME 0 1 40000000 tt tt
             eq_refl eq_refl Hf).
Defined.

(** C2, amended, on hardware whose every call fails. *)
Lemma checked_failures_are_raised_witness :
  reports_failures
    (perform unit (Script.always (-5) true) "usrp_time" "host_time"
       Op_start_streaming paired).
Proof.
  apply checked_failures_are_raised. intros handle. discriminate.
Defined.

(** C2 as worded fails for the latency probe: the frequency-set call
    reports [-5] and the probe returns the elapsed time. *)
Lemma latency_probe_masks_failure_counterexample :
  ~ no_masked_failure
      (perform unit (Script.always (-5) true) "usrp_time" "host_time"
         (Op_get_set_frequency_call_latency 0) single).
Proof.
  intros Hc.
  destruct (Hc (Call (Set_frequency_func 0 0 2400000000) (-5)))
    as [what Hw].
  - right. left. reflexivity.
  - reflexivity.
  - discriminate.
  - discriminate Hw.
Defined.

(** A few runs on the scripted hardware. *)

Example full_scale_12_bits : full_scale 12 = Double.of_Z 2047.
Proof. reflexivity. Qed.

Example construct_host_clock_run :
  log_of (construct unit quiet 0 SYNC_SYSTEM_TIME 0 1 single) =
    [Call (Skiq_init 0 1) 0;
     Call (Skiq_read_sys_timestamp_freq 0) (0, 40000000);
     Call (Skiq_read_parameters 0) (0, Script.params);
     Call System_clock_now 1700000000123456789;
     Call (Skiq_update_timestamps 0 68000000004938271) 0].
Proof. reflexivity. Qed.

Example telemetry_run :
  result_of (get_telemetry_pmt unit quiet "usrp_time" "host_time" single) =
    Returns
      (Pmt.acons (Pmt.symbol "host_time")
         (Pmt.cons (Pmt.from_long 1700000000)
            (Pmt.from_double (S754_finite false 8895999182988127 (-56))))
         (Pmt.acons (Pmt.symbol "usrp_time")
            (Pmt.cons (Pmt.from_long 3)
               (Pmt.from_double (S754_finite false 6227197460919372 (-56))))
            Pmt.PMT_NIL)).
Proof. reflexivity. Qed.

Example stop_streaming_secondary_fails_run :
  stop_streaming unit (always (-5) true) paired =
    (Throws "Failure: stop streaming", paired,
     [Call (Stop_streaming_func 0 1) (-5);
      Printf "Error: could not stop streaming, status %d, %s\n"
        [Arg_int (-5); Arg_strerror_abs (-5)]]).
Proof. reflexivity. Qed.

Example accelerometer_read_fails_run :
  log_of (read_accelerometer unit (always (-5) true) single) =
    [Call (Skiq_is_accel_supported 0) (-5, true);
     Call (Skiq_write_accel_state 0 1) (-5);
     Call (Skiq_read_accel 0) (-5, (0, 0, 16384));
     Call (Skiq_write_accel_state 0 0) (-5);
     Printf "Error: Unable to read the accelerometer\r\n" []].
Proof. reflexivity. Qed.

(** ** Runs for the further properties *)

Lemma adapter_unchanged_witness :
  this (final (perform unit quiet "usrp_time" "host_time"
                 Op_read_accelerometer paired)) = this paired.
Proof. apply adapter_unchanged. reflexivity. Defined.

Lemma throws_after_error_line_witness :
  is_error_line
    (last_event
       (log_of (perform unit (always (-5) true) "usrp_time" "host_time"
                  (Op_read_rfic_register 23) single))) = true.
Proof.
  apply (throws_after_error_line unit (always (-5) true)
           "usrp_time" "host_time" (Op_read_rfic_register 23) single
           "Failure: skiq_read_rfic_reg").
  reflexivity.
Defined.

Lemma no_call_after_failure_witness :
  invoked
    [Printf "Error: could not set sample_rate, status %d, %s\n"
       [Arg_int (-5); Arg_strerror_abs (-5)]] = [].
Proof.
  assert (Hop : Op_set_samplerate_bandwidth (Double.of_Z 30720000)
                  (Double.of_Z 20000000) <> Op_read_accelerometer)
    by discriminate.
  apply (no_call_after_failure nat (Lab.tiring 1) "usrp_time" "host_time"
           (Op_set_samplerate_bandwidth (Double.of_Z 30720000)
              (Double.of_Z 20000000))
           Lab.fresh_pair Hop
           [Call (Set_sample_rate_func 0 0 30720000 20000000) 0]
           (Call (Set_sample_rate_func 0 1 30720000 20000000) (-5))).
  - reflexivity.
  - reflexivity.
  - discriminate.
Defined.

Lemma dispatch_failure_prints_status_witness :
  exists format,
    last_event
      (log_of (perform unit (always (-5) true) "usrp_time" "host_time"
                 (Op_get_timestamp 0) single)) =
      Printf format [Arg_int (-5); Arg_strerror_abs (-5)].
Proof.
  assert (Hop : forall handle,
            Op_get_timestamp 0 <> Op_get_set_frequency_call_latency handle)
    by discriminate.
  apply (dispatch_failure_prints_status unit (always (-5) true)
           "usrp_time" "host_time" (Op_get_timestamp 0) single Hop
           (Call (Get_timestamp_func 0 0) (-5, 0))).
  - left. reflexivity.
  - reflexivity.
  - discriminate.
Defined.

Lemma construct_init_failure_witness :
  result_of (construct unit (always (-5) true) 0 SYNC_ZERO 0 1 single) =
    Throws "Failure: skiq_init".
Proof.
  assert (Hst : fst (always (-5) true _ (Skiq_init (Int.u8 0) NUM_CARDS)
                       (hw single)) <> 0) by discriminate.
  rewrite (construct_init_failure unit (always (-5) true) single
             0 SYNC_ZERO 0 1 Hst).
  reflexivity.
Defined.

Lemma construct_zero_sync_witness :
  invoked (log_of (construct unit quiet 0 SYNC_ZERO 0 1 single)) =
    [Invoke (Skiq_init 0 1); Invoke (Skiq_read_sys_timestamp_freq 0);
     Invoke (Skiq_read_parameters 0); Invoke (Skiq_reset_timestamps 0)].
Proof.
  assert (Hf : 40000000 <> 0) by discriminate.
  destruct (construct_zero_sync unit quiet single 0 0 1 40000000 tt tt
              eq_refl eq_refl Hf) as [P _].
  exact P.
Defined.

Lemma construct_division_by_zero_witness :
  result_of (construct unit (Lab.clocked 0) 0 SYNC_ZERO 0 1 single)
    = Undefined /\
  result_of (construct unit (Lab.clocked 2000000000) 0 SYNC_SYSTEM_TIME
               0 1 single) = Undefined.
Proof.
  split.
  - destruct (construct_division_by_zero unit (Lab.clocked 0) single
                0 SYNC_ZERO 0 1 0 tt tt eq_refl eq_refl
                (or_introl eq_refl)) as [P _].
    exact P.
  - assert (Hbig : NANOSECONDS_IN_SECOND < 2000000000) by reflexivity.
    destruct (construct_division_by_zero unit (Lab.clocked 2000000000)
                single 0 SYNC_SYSTEM_TIME 0 1 2000000000 tt tt
                eq_refl eq_refl (or_intror (conj Hbig eq_refl))) as [P _].
    exact P.
Defined.

Lemma full_scale_value_witness :
  Double.trunc (full_scale 16) = Some 32767 /\
  Double.trunc (full_scale 64) = Some 9223372036854775808.
Proof.
  split.
  - apply (proj1 (full_scale_value 16)). lia.
  - apply (proj2 (full_scale_value 64)). lia.
Defined.

Lemma returned_status_is_zero_witness :
  exists v,
    result_of (start_streaming unit quiet paired) = Returns v /\ v = 0.
Proof.
  exists 0. split; [reflexivity |].
  apply (proj1 (returned_status_is_zero unit quiet paired
                  (Double.of_Z 1) (Double.of_Z 1) (Double.of_Z 1) 0)).
  reflexivity.
Defined.

Lemma set_frequency_single_witness :
  exists st rest,
    log_of (set_frequency unit quiet (Double.of_Z 915000000) single) =
      Call (Set_frequency_func 0 0 915000000) st :: rest.
Proof.
  destruct (set_frequency_single unit quiet single
              (Double.of_Z 915000000) 915000000 eq_refl eq_refl)
    as (st & rest & P & _).
  exists st, rest. exact P.
Defined.

Lemma integral_requests_unchanged_witness :
  exists st rest,
    log_of (set_frequency unit quiet (Double.of_Z 5800000000) paired) =
      Call (Set_frequency_func 0 1 5800000000) st :: rest.
Proof.
  assert (Hr : 0 <= 30720000 < 2 ^ 32) by (split; [lia | reflexivity]).
  assert (Hb : 0 <= 20000000 < 2 ^ 32) by (split; [lia | reflexivity]).
  assert (Hf : 0 <= 5800000000 < 2 ^ 53) by (split; [lia | reflexivity]).
  destruct (integral_requests_unchanged unit quiet paired
              30720000 20000000 5800000000 Hr Hb Hf) as [_ P].
  exact P.
Defined.

Lemma negative_fraction_is_zero_witness :
  Double.floor (S754_finite true 4503599627370496 (-53)) = Some (-1) /\
  exists st rest,
    log_of (set_samplerate_bandwidth unit quiet
              (S754_finite true 4503599627370496 (-53))
              (Double.of_Z 20000000) single) =
      Call (Set_sample_rate_func 0 0 0 20000000) st :: rest.
Proof.
  assert (He : -53 < 0) by reflexivity.
  assert (Hm : 4503599627370496 < 2 ^ (- -53)) by reflexivity.
  exact (negative_fraction_is_zero unit quiet single
           4503599627370496 (-53) (Double.of_Z 20000000) 20000000
           He Hm eq_refl).
Defined.

Lemma get_filter_parameters_lists_taps_witness :
  log_of (get_filter_parameters unit (Lab.filtering 3) single) =
    [Call (Get_rfic_fir_config_func 0) (0, (3, 2));
     Call (Get_rfic_fir_coeffs_func 0) (0, Lab.ramp);
     Printf "FIR decimation: %d\n" [Arg_int 2];
     Printf "FIR num taps: %d\n" [Arg_int 3];
     Printf "FIR taps:\n" [];
     Printf "%03d,%05d\n" [Arg_int 0; Arg_int 0];
     Printf "%03d,%05d\n" [Arg_int 1; Arg_int 1];
     Printf "%03d,%05d\n" [Arg_int 2; Arg_int 2];
     Printf "\n\n" []].
Proof.
  assert (Hn : 0 <= 3 <= 128) by lia.
  rewrite (get_filter_parameters_lists_taps unit (Lab.filtering 3) single
             3 2 Lab.ramp tt tt eq_refl eq_refl eq_refl Hn).
  reflexivity.
Defined.


Lemma telemetry_entries_witness :
  exists d,
    result_of (get_telemetry_pmt unit quiet "usrp_time" "host_time" single)
      = Returns d /\
    Pmt.dict_ref d (Pmt.symbol "usrp_time") =
      Some (get_pmt_cons_from_timestamp 3086419725).
Proof.
  assert (Hk : "usrp_time" <> "host_time") by discriminate.
  destruct (telemetry_entries unit quiet "usrp_time" "host_time" single
              123456789 tt Hk eq_refl) as (d & Hd & Hu & _).
  exists d. split; [exact Hd | exact Hu].
Defined.

(** A write that is accepted on both channels, a stream start, and a
    second write that the hardware rejects: the cache keeps the first. *)
Lemma cache_is_last_accepted_write_witness :
  cache
    (this
       (fst
          (session (Lab.tiring 3) "usrp_time" "host_time"
             [Op_set_samplerate_bandwidth (Double.of_Z 30720000)
                (Double.of_Z 20000000);
              Op_start_streaming;
              Op_set_samplerate_bandwidth (Double.of_Z 61440000)
                (Double.of_Z 56000000)]
             Lab.fresh_pair))) = (30720000, 20000000).
Proof.
  rewrite (cache_is_last_accepted_write nat (Lab.tiring 3)
             "usrp_time" "host_time"
             [Op_set_samplerate_bandwidth (Double.of_Z 30720000)
                (Double.of_Z 20000000);
              Op_start_streaming;
              Op_set_samplerate_bandwidth (Double.of_Z 61440000)
                (Double.of_Z 56000000)]
             eq_refl Lab.fresh_pair).
  reflexivity.
Defined.

End Runs.
